(** * MyNewBot: the pairing relay and the forward-all relay

    A shallow embedding of [forward_pair_webhook.py] and
    [forward_bot_webhook.py].  The handlers are written in a small
    state / exception / trace monad: the state is the module-level [_pairs]
    dictionary together with what is on disk at [PAIRS_FILE], exceptions are
    Python's, and the trace lists the Bot API, logging and file-write calls
    a handler made, in order. *)

From Stdlib Require Import ZArith QArith Ascii.
From stdpp Require Import gmap strings pretty list fin_maps.

Set Warnings "-register-all".
Local Open Scope Z_scope.

(** ** Python builtins used by the two files *)

Module Py.

(** The exception classes the code can meet.  All of them derive from
    [Exception], so a bare [except Exception] catches each one. *)
Inductive exn : Type :=
| ValueError
| TypeError
| AttributeError
| OverflowError
| OSError
| JSONDecodeError
| TelegramError.

(** [str(n)] for an [int]: the decimal rendering, with a leading minus
    sign for negative numbers. *)
Definition str (n : Z) : string := pretty n.

(** Truthiness of an [int] and of an [Optional[int]]. *)
Definition truthy (n : Z) : bool := negb (n =? 0).

Definition truthy_opt (o : option Z) : bool :=
  match o with
  | Some n => truthy n
  | None => false
  end.

(** *** Floats, as far as [int(x)] needs them *)

Inductive pyfloat : Type :=
| Finite (q : Q)
| Infinite
| NaN.

Definition int_of_float (x : pyfloat) : exn + Z :=
  match x with
  | Finite q => inr (Z.quot (Qnum q) (Z.pos (Qden q)))
  | Infinite => inl OverflowError
  | NaN => inl ValueError
  end.

(** *** What [json.load] returns *)

Inductive json : Type :=
| JNull
| JBool (b : bool)
| JInt (n : Z)
| JFloat (x : pyfloat)
| JStr (s : string)
| JArr (l : list json)
| JObj (members : list (string * json)).

(** [int(v)] for a decoded JSON value.  [int_of_str] is [int] on strings,
    with [None] for a [ValueError]. *)
Definition int (int_of_str : string → option Z) (v : json) : exn + Z :=
  match v with
  | JNull => inl TypeError
  | JBool b => inr (Z.b2z b)
  | JInt n => inr n
  | JFloat x => int_of_float x
  | JStr s =>
      match int_of_str s with
      | Some n => inr n
      | None => inl ValueError
      end
  | JArr _ => inl TypeError
  | JObj _ => inl TypeError
  end.

(** [v.items()]: only a [dict] has it. *)
Definition items (v : json) : exn + list (string * json) :=
  match v with
  | JObj members => inr members
  | _ => inl AttributeError
  end.

End Py.

(** ** A reader of ASCII numerals

    [int(s)] for a string is the interpreter's: which characters count as
    digits and as white space, and how many digits it accepts, come with the
    Python that runs the bot.  The handlers therefore take it from their
    platform ([int_of_str] below).  The reader here is the one the concrete
    runs use: on ASCII text of at most 4300 digits it reads what [int]
    reads, white space at both ends dropped, one sign allowed, digits
    grouped by single underscores. *)

Module AsciiInt.

Definition is_space (c : ascii) : bool :=
  let n := N_of_ascii c in
  ((9 <=? n) && (n <=? 13) || (n =? 32))%N.

Definition digit_val (c : ascii) : option Z :=
  let n := N_of_ascii c in
  if ((48 <=? n) && (n <=? 57))%N then Some (Z.of_N n - 48) else None.

Fixpoint lstrip (s : string) : string :=
  match s with
  | String c s' => if is_space c then lstrip s' else s
  | EmptyString => EmptyString
  end.

Fixpoint rstrip (s : string) : string :=
  match s with
  | String c s' =>
      match rstrip s' with
      | EmptyString => if is_space c then EmptyString else String c EmptyString
      | r => String c r
      end
  | EmptyString => EmptyString
  end.

(** [digits acc after_digit s]: [after_digit] tells whether the previous
    character was a digit, which is where an underscore or the end of the
    literal is allowed. *)
Fixpoint digits (acc : Z) (after_digit : bool) (s : string) : option Z :=
  match s with
  | EmptyString => if after_digit then Some acc else None
  | String c s' =>
      if Ascii.eqb c "_"%char then
        if after_digit then digits acc false s' else None
      else
        match digit_val c with
        | Some d => digits (10 * acc + d) true s'
        | None => None
        end
  end.

Definition int_of_str (s : string) : option Z :=
  match rstrip (lstrip s) with
  | String c s' =>
      if Ascii.eqb c "-"%char then Z.opp <$> digits 0 false s'
      else if Ascii.eqb c "+"%char then digits 0 false s'
      else digits 0 false (String c s')
  | EmptyString => None
  end.

End AsciiInt.


(** ** The world the handlers run in *)

(** What is at [PAIRS_FILE]: nothing, something that makes [open] or
    [json.load] raise, or a document that [json.load] decodes. *)
Inductive file_state : Type :=
| Absent
| Unreadable (e : Py.exn)
| Holds (j : Py.json).

(** The module-level state: the [_pairs] dictionary (keys are [str(chat_id)])
    and the file behind it. *)
Record world : Type := World {
  _pairs : gmap string Z;
  PAIRS_FILE : file_state
}.

(** Calls that leave the process, in the order a handler makes them. *)
Inductive call : Type :=
| reply_text (chat_id : Z) (text : string)
| reply_html (chat_id : Z) (text : string)
| send_message (chat_id : Z) (text : string)
| copy_message (chat_id from_chat_id message_id : Z)
| log_exception (msg : string)
| write_pairs (doc : Py.json).

(** How the surroundings answer: a Bot API call may raise, and so may the
    write of the pairs file, which then leaves some [file_state] behind;
    [int_of_str s] is what the interpreter's [int(s)] gives for a string,
    [None] when it raises [ValueError]. *)
Record platform : Type := Platform {
  bot_raises : call → option Py.exn;
  write_raises : Py.json → file_state → option (Py.exn * file_state);
  int_of_str : string → option Z
}.

(** *** The monad *)

Inductive res (A : Type) : Type :=
| Ret (a : A)
| Raise (e : Py.exn).
Arguments Ret {A} a.
Arguments Raise {A} e.

Definition M (A : Type) : Type :=
  platform → world → res A * world * list call.

Definition ret {A} (a : A) : M A := λ _ w, (Ret a, w, []).

Definition bind {A B} (m : M A) (k : A → M B) : M B := λ env w,
  match m env w with
  | (Ret a, w1, t1) =>
      match k a env w1 with
      | (r, w2, t2) => (r, w2, t1 ++ t2)
      end
  | (Raise e, w1, t1) => (Raise e, w1, t1)
  end.

Definition raise {A} (e : Py.exn) : M A := λ _ w, (Raise e, w, []).

(** [try: body / except Exception as e: handler e]. *)
Definition try_except {A} (body : M A) (handler : Py.exn → M A) : M A :=
  λ env w,
  match body env w with
  | (Ret a, w1, t1) => (Ret a, w1, t1)
  | (Raise e, w1, t1) =>
      match handler e env w1 with
      | (r, w2, t2) => (r, w2, t1 ++ t2)
      end
  end.

Definition lift {A} (r : Py.exn + A) : M A :=
  match r with
  | inl e => raise e
  | inr a => ret a
  end.

Definition get_world : M world := λ _ w, (Ret w, w, []).

Definition ask : M platform := λ env w, (Ret env, w, []).

Definition set_pairs_dict (d : gmap string Z) : M unit := λ _ w,
  (Ret tt, World d (PAIRS_FILE w), []).

(** A Bot API call: recorded, then it returns or raises as the platform
    says. *)
Definition api (c : call) : M unit := λ env w,
  match bot_raises env c with
  | Some e => (Raise e, w, [c])
  | None => (Ret tt, w, [c])
  end.

(** [log.exception(...)] never fails. *)
Definition log (msg : string) : M unit := λ _ w,
  (Ret tt, w, [log_exception msg]).

#[global] Instance M_ret : MRet M := @ret.
#[global] Instance M_bind : MBind M := λ A B k m, bind m k.

Definition run {A} (env : platform) (m : M A) (w : world) :
    res A * world * list call := m env w.
Definition result {A} (env : platform) (m : M A) (w : world) : res A :=
  (run env m w).1.1.
Definition exec {A} (env : platform) (m : M A) (w : world) : world :=
  (run env m w).1.2.
Definition trace {A} (env : platform) (m : M A) (w : world) : list call :=
  (run env m w).2.

(** ** The part of an update the handlers look at *)

Module Telegram.
Record User : Type := { is_bot : bool }.
Record Chat : Type := { id : Z; type : string }.
Record Message : Type := { message_id : Z; from_user : option User }.
(** [update.message] is set for a new message and [None] for an edited
    one; [effective_message] and [effective_chat] are set for both.  When
    [update.message] is set it is the effective message, in the effective
    chat. *)
Record Update : Type := {
  effective_chat : Chat;
  effective_message : Message;
  message : option Message
}.
(** [context.args]; [None] and the empty list are both falsy and are both
    the empty list here. *)
Record Context : Type := { args : list string }.
End Telegram.

Definition LF : string := String (ascii_of_N 10) EmptyString.

(** [update.message.reply_text(text)] and [update.message.reply_html(text)],
    with [kind] telling which: on an update without [update.message] the
    attribute access raises before anything is sent. *)
Definition reply (kind : Z → string → call) (update : Telegram.Update)
    (text : string) : M unit :=
  match Telegram.message update with
  | Some _ => api (kind (Telegram.id (Telegram.effective_chat update)) text)
  | None => raise Py.AttributeError
  end.

(** ** forward_pair_webhook.py *)

Module PairBot.

(** *** Storage *)

(** [{k: int(v) for k, v in members}], filling [d] from left to right and
    stopping at the first [int(v)] that raises. *)
Fixpoint comprehension (int_of_str : string → option Z) (d : gmap string Z)
    (members : list (string * Py.json)) : Py.exn + gmap string Z :=
  match members with
  | [] => inr d
  | (k, v) :: rest =>
      match Py.int int_of_str v with
      | inl e => inl e
      | inr n => comprehension int_of_str (<[k := n]> d) rest
      end
  end.

(** [open(PAIRS_FILE)] followed by [json.load(f)]. *)
Definition json_load (f : file_state) : Py.exn + Py.json :=
  match f with
  | Absent => inl Py.OSError
  | Unreadable e => inl e
  | Holds j => inr j
  end.

Definition load_pairs : M unit :=
  w ← get_world;
  match PAIRS_FILE w with
  | Absent => set_pairs_dict ∅
  | f =>
      try_except
        (j ← lift (json_load f);
         members ← lift (Py.items j);
         env ← ask;
         d ← lift (comprehension (int_of_str env) ∅ members);
         set_pairs_dict d)
        (λ e, log "Failed to load pairs: %s";; set_pairs_dict ∅)
  end.

(** [json.dump(_pairs, f)]: string keys, integer values. *)
Definition dump (d : gmap string Z) : Py.json :=
  Py.JObj ((λ kv, (kv.1, Py.JInt kv.2)) <$> map_to_list d).

(** [_ensure_dir], [open(PAIRS_FILE, "w")] and [json.dump] as one write. *)
Definition write_file (doc : Py.json) : M unit := λ env w,
  match write_raises env doc (PAIRS_FILE w) with
  | None => (Ret tt, World (_pairs w) (Holds doc), [write_pairs doc])
  | Some (e, rest) => (Raise e, World (_pairs w) rest, [write_pairs doc])
  end.

Definition save_pairs : M unit :=
  try_except
    (w ← get_world; write_file (dump (_pairs w)))
    (λ e, log "Failed to save pairs: %s").

Definition get_partner (chat_id : Z) : M (option Z) :=
  w ← get_world; mret (_pairs w !! Py.str chat_id).

(** [_pairs[k] = v] *)
Definition setitem (k : string) (v : Z) : M unit :=
  w ← get_world; set_pairs_dict (<[k := v]> (_pairs w)).

(** [_pairs.pop(k, None)] *)
Definition pop (k : string) : M (option Z) :=
  w ← get_world;
  set_pairs_dict (delete k (_pairs w));;
  mret (_pairs w !! k).

Definition set_pair (a b : Z) : M unit :=
  setitem (Py.str a) b;;
  setitem (Py.str b) a;;
  save_pairs.

Definition unlink (a : Z) : M (option Z) :=
  b ← pop (Py.str a);
  match b with
  | Some b' => _ ← pop (Py.str b'); mret tt
  | None => mret tt
  end;;
  save_pairs;;
  mret b.

(** *** Commands *)

Definition HELP_TEXT (cid : string) : string :=
  "Я связываю два аккаунта и пересылаю сообщения между ними." +:+ LF +:+ LF
  +:+ "Твой ID: <code>" +:+ cid +:+ "</code>" +:+ LF
  +:+ "Команды:" +:+ LF
  +:+ "/myid — показать твой ID" +:+ LF
  +:+ "/link &lt;ID&gt; — связать с другим аккаунтом (вставь его ID)" +:+ LF
  +:+ "/unlink — разорвать связь" +:+ LF +:+ LF
  +:+ "Пример: <code>/link 123456789</code>" +:+ LF
  +:+ "Подсказка: отправь этот ID второму аккаунту, он сделает /link "
  +:+ cid +:+ " — и вы будете связаны." +:+ LF.

Definition start_cmd (update : Telegram.Update) : M unit :=
  let cid := Telegram.id (Telegram.effective_chat update) in
  partner ← get_partner cid;
  let msg := "👋 Привет! Я бот-«пересылатель»." +:+ LF +:+ LF
             +:+ HELP_TEXT (Py.str cid) in
  let msg :=
    if Py.truthy_opt partner then
      msg +:+ LF +:+ "✅ Уже связан с: <code>"
      +:+ from_option Py.str "None" partner +:+ "</code>"
      +:+ LF +:+ "Напиши любое сообщение — я отправлю его партнёру."
    else msg +:+ LF +:+ "Связи пока нет. Сделай /link <ID> — и поехали." in
  reply reply_html update msg.

Definition myid_cmd (update : Telegram.Update) : M unit :=
  let cid := Telegram.id (Telegram.effective_chat update) in
  reply reply_html update ("Твой ID: <code>" +:+ Py.str cid +:+ "</code>").

Definition MSG_PROVIDE_ID : string := "Укажи ID: /link 123456789".
Definition MSG_MUST_BE_NUMBER : string :=
  "ID должен быть числом. Пример: /link 123456789".
Definition MSG_NOT_YOURSELF : string := "Нельзя связать самого себя 🙂".

Definition link_cmd (update : Telegram.Update) (context : Telegram.Context)
    : M unit :=
  let cid := Telegram.id (Telegram.effective_chat update) in
  match Telegram.args context with
  | [] => reply reply_text update MSG_PROVIDE_ID
  | arg :: _ =>
      env ← ask;
      match int_of_str env arg with
      | None => reply reply_text update MSG_MUST_BE_NUMBER
      | Some other =>
          if bool_decide (other = cid) then
            reply reply_text update MSG_NOT_YOURSELF
          else
            set_pair cid other;;
            try_except
              (api (send_message other
                 ("🔗 Вас связали с аккаунтом <code>" +:+ Py.str cid
                  +:+ "</code>." +:+ LF
                  +:+ "Теперь сообщения будут пересылаться автоматически.")))
              (λ _, mret tt);;
            reply reply_html update
              ("Готово! 🔗 Связал с <code>" +:+ Py.str other +:+ "</code>."
               +:+ LF
               +:+ "Напиши любое сообщение — я отправлю его партнёру." +:+ LF
               +:+ "Чтобы отменить: /unlink")
      end
  end.

Definition unlink_cmd (update : Telegram.Update) : M unit :=
  let cid := Telegram.id (Telegram.effective_chat update) in
  other ← unlink cid;
  if Py.truthy_opt other then
    match other with
    | Some o =>
        try_except
          (api (send_message o "❌ Связь разорвана партнёром."))
          (λ _, mret tt)
    | None => mret tt (* not reached: [None] is falsy *)
    end;;
    reply reply_text update "Связь разорвана."
  else reply reply_text update "Связи не было.".

(** *** Relay *)

Definition relay_messages (update : Telegram.Update) : M unit :=
  let msg := Telegram.effective_message update in
  let chat := Telegram.effective_chat update in
  if negb (String.eqb (Telegram.type chat) "private") then mret tt
  else if
    match Telegram.from_user msg with
    | Some u => Telegram.is_bot u
    | None => false
    end
  then mret tt
  else
    partner ← get_partner (Telegram.id chat);
    if negb (Py.truthy_opt partner) then mret tt
    else
      match partner with
      | Some p =>
          try_except
            (api (copy_message p (Telegram.id chat) (Telegram.message_id msg)))
            (λ e, log "Forward error: %s")
      | None => mret tt (* not reached: [None] is falsy *)
      end.

End PairBot.

(** ** forward_bot_webhook.py *)

Module ForwardBot.

(** The two settings [forward_all] reads.  [SOURCE_CHAT_ID] is [None]
    when the variable is unset or empty. *)
Record config : Type := {
  TARGET_CHAT_ID : Z;
  SOURCE_CHAT_ID : option Z
}.

Definition forward_all (cfg : config) (update : Telegram.Update) : M unit :=
  let msg := Telegram.effective_message update in
  let chat := Telegram.effective_chat update in
  if Py.truthy_opt (SOURCE_CHAT_ID cfg)
     && negb (bool_decide (Some (Telegram.id chat) = SOURCE_CHAT_ID cfg))
  then mret tt
  else if Telegram.id chat =? TARGET_CHAT_ID cfg then mret tt
  else
    api (copy_message (TARGET_CHAT_ID cfg) (Telegram.id chat)
           (Telegram.message_id msg)).

End ForwardBot.

(** No white space anywhere: what [strip] leaves alone. *)
Fixpoint visible (s : string) : bool :=
  match s with
  | String c s' => negb (AsciiInt.is_space c) && visible s'
  | EmptyString => true
  end.

(** ** Histories of the store *)

(** The two mutating operations, as the commands issue them. *)
Inductive op : Type :=
| SetPair (a b : Z)
| Unlink (x : Z).

Definition perform (o : op) : M unit :=
  match o with
  | SetPair a b => PairBot.set_pair a b
  | Unlink x => _ ← PairBot.unlink x; mret tt
  end.

(** [set_pair] asks for two different identities. *)
Definition admissible (o : op) : Prop :=
  match o with
  | SetPair a b => a ≠ b
  | Unlink _ => True
  end.

Definition perform_all (env : platform) (ops : list op) (w : world) : world :=
  foldl (λ w o, exec env (perform o) w) w ops.

(** The states the store can be in, starting with no pairs. *)
Inductive reachable (env : platform) : world → Prop :=
| reachable_empty f : reachable env (World ∅ f)
| reachable_step w o :
    reachable env w → admissible o → reachable env (exec env (perform o) w).

(** Every recorded partner points back. *)
Definition symmetric (env : platform) (w : world) : Prop :=
  ∀ A B : Z,
    result env (PairBot.get_partner A) w = Ret (Some B) →
    result env (PairBot.get_partner B) w = Ret (Some A).

(** [1] links with [2] and then with [3]. *)
Definition relinked (env : platform) : world :=
  perform_all env [SetPair 1 2; SetPair 1 3] (World ∅ Absent).

(** ** What a handler delivered *)

(** The [copy_message] calls of a trace, as (target, source, message). *)
Definition copies (t : list call) : list (Z * Z * Z) :=
  omap (λ c, match c with
             | copy_message p cid mid => Some (p, cid, mid)
             | _ => None
             end) t.

Definition is_private (u : Telegram.Update) : bool :=
  String.eqb (Telegram.type (Telegram.effective_chat u)) "private".

Definition written_by_bot (u : Telegram.Update) : bool :=
  match Telegram.from_user (Telegram.effective_message u) with
  | Some author => Telegram.is_bot author
  | None => false
  end.

(** The persisted file of the load scenario: [{"100": 200, "200": 100}]. *)
Definition pairs_100_200 : Py.json :=
  Py.JObj [("100", Py.JInt 200); ("200", Py.JInt 100)].

(** The identity a handler acts for: [update.effective_chat.id]. *)
Definition sender (u : Telegram.Update) : Z :=
  Telegram.id (Telegram.effective_chat u).

(** ** Fixtures *)

(** A platform on which every call succeeds. *)
Definition quiet : platform :=
  Platform (λ _, None) (λ _ _, None) AsciiInt.int_of_str.

(** A platform on which every call fails. *)
Definition hostile : platform :=
  Platform (λ _, Some Py.TelegramError) (λ _ f, Some (Py.OSError, f))
    AsciiInt.int_of_str.

Definition fresh : world := World ∅ Absent.

Definition private_chat (cid : Z) : Telegram.Chat :=
  {| Telegram.id := cid; Telegram.type := "private" |}.

Definition group_chat (cid : Z) : Telegram.Chat :=
  {| Telegram.id := cid; Telegram.type := "group" |}.

Definition from_human (mid : Z) : Telegram.Message :=
  {| Telegram.message_id := mid;
     Telegram.from_user := Some {| Telegram.is_bot := false |} |}.

Definition update_of (chat : Telegram.Chat) (msg : Telegram.Message)
    : Telegram.Update :=
  {| Telegram.effective_chat := chat; Telegram.effective_message := msg;
     Telegram.message := Some msg |}.

(** The same message after its author edited it. *)
Definition edited (u : Telegram.Update) : Telegram.Update :=
  {| Telegram.effective_chat := Telegram.effective_chat u;
     Telegram.effective_message := Telegram.effective_message u;
     Telegram.message := None |}.

(** A user who linked with the group [-100], and a message in that group. *)
Definition group_linked : world := exec quiet (PairBot.set_pair 200 (-100)) fresh.

Definition group_message : Telegram.Update :=
  update_of (group_chat (-100)) (from_human 7).

(** A forward-all configuration whose source restriction is 0. *)
Definition source_zero : ForwardBot.config :=
  {| ForwardBot.TARGET_CHAT_ID := 7; ForwardBot.SOURCE_CHAT_ID := Some 0 |}.

Definition restricted_to (s : Z) : ForwardBot.config :=
  {| ForwardBot.TARGET_CHAT_ID := 7; ForwardBot.SOURCE_CHAT_ID := Some s |}.

(** ** Histories that keep the pairs tidy *)

(** [a] and [b] may be linked without leaving anybody behind: neither has
    a partner other than the other one. *)
Definition unattached (env : platform) (w : world) (a b : Z) : Prop :=
  (∀ c, result env (PairBot.get_partner a) w = Ret (Some c) → c = b)
  ∧ (∀ c, result env (PairBot.get_partner b) w = Ret (Some c) → c = a).

(** States reached from the empty store when every [set_pair] is issued for
    two unattached identities. *)
Inductive tidy (env : platform) : world → Prop :=
| tidy_empty f : tidy env (World ∅ f)
| tidy_unlink w x : tidy env w → tidy env (exec env (PairBot.unlink x) w)
| tidy_set_pair w a b :
    tidy env w → unattached env w a b →
    tidy env (exec env (PairBot.set_pair a b) w).

(** A process that starts again: the dictionary is whatever the new process
    begins with, the file is the one [w] left. *)
Definition restarted (d0 : gmap string Z) (w : world) : world :=
  World d0 (PAIRS_FILE w).

(** ** The texts of the link and unlink commands *)

Definition LINK_NOTICE (cid : Z) : string :=
  "🔗 Вас связали с аккаунтом <code>" +:+ Py.str cid +:+ "</code>." +:+ LF
  +:+ "Теперь сообщения будут пересылаться автоматически.".

Definition LINK_DONE (other : Z) : string :=
  "Готово! 🔗 Связал с <code>" +:+ Py.str other +:+ "</code>." +:+ LF
  +:+ "Напиши любое сообщение — я отправлю его партнёру." +:+ LF
  +:+ "Чтобы отменить: /unlink".

Definition UNLINK_NOTICE : string := "❌ Связь разорвана партнёром.".
Definition UNLINK_DONE : string := "Связь разорвана.".
Definition UNLINK_NOTHING : string := "Связи не было.".

(** What a call that may raise gives back. *)
Definition outcome (env : platform) (c : call) : res unit :=
  match bot_raises env c with
  | Some e => Raise e
  | None => Ret tt
  end.

(** What [update.message.reply_...] sends and gives back: on an update
    without [update.message] it sends nothing and raises. *)
Definition replies (u : Telegram.Update) (c : call) : list call :=
  match Telegram.message u with
  | Some _ => [c]
  | None => []
  end.

Definition reply_outcome (env : platform) (u : Telegram.Update) (c : call)
    : res unit :=
  match Telegram.message u with
  | Some _ => outcome env c
  | None => Raise Py.AttributeError
  end.

(** ** Sequences of handler calls *)

(** The five handlers of the pair bot, each with the update (and, for
    [/link], the arguments) it is called with. *)
Inductive invocation : Type :=
| on_start (u : Telegram.Update)
| on_myid (u : Telegram.Update)
| on_link (u : Telegram.Update) (ctx : Telegram.Context)
| on_unlink (u : Telegram.Update)
| on_message (u : Telegram.Update).

Definition invoke (i : invocation) : M unit :=
  match i with
  | on_start u => PairBot.start_cmd u
  | on_myid u => PairBot.myid_cmd u
  | on_link u ctx => PairBot.link_cmd u ctx
  | on_unlink u => PairBot.unlink_cmd u
  | on_message u => PairBot.relay_messages u
  end.

Definition invoke_all (env : platform) (l : list invocation) (w : world)
    : world :=
  foldl (λ w i, exec env (invoke i) w) w l.

(** Nobody is recorded as their own partner. *)
Definition no_self_pairing (env : platform) (w : world) : Prop :=
  ∀ a : Z, result env (PairBot.get_partner a) w ≠ Ret (Some a).

(** ** The texts of [/start] *)

Definition GREETING (cid : Z) : string :=
  "👋 Привет! Я бот-«пересылатель»." +:+ LF +:+ LF
  +:+ PairBot.HELP_TEXT (Py.str cid).

Definition STATUS_LINKED (p : Z) : string :=
  LF +:+ "✅ Уже связан с: <code>" +:+ Py.str p +:+ "</code>"
  +:+ LF +:+ "Напиши любое сообщение — я отправлю его партнёру.".

Definition STATUS_NOT_LINKED : string :=
  LF +:+ "Связи пока нет. Сделай /link <ID> — и поехали.".

Definition MYID_TEXT (cid : Z) : string :=
  "Твой ID: <code>" +:+ Py.str cid +:+ "</code>".

(** ** The rest of forward_bot_webhook.py *)

Module ForwardBotSetup.

(** [start_cmd] of the forward-all bot: one text, built from the two
    settings. *)
Definition START_HEAD (cfg : ForwardBot.config) : string :=
  "Привет! Я пересылаю сообщения." +:+ LF
  +:+ "Назначение: " +:+ Py.str (ForwardBot.TARGET_CHAT_ID cfg) +:+ LF.

Definition start_cmd (cfg : ForwardBot.config) (update : Telegram.Update)
    : M unit :=
  reply reply_text update
    (START_HEAD cfg
     +:+ (if Py.truthy_opt (ForwardBot.SOURCE_CHAT_ID cfg) then
            "Источник ограничен: "
            +:+ from_option Py.str "None" (ForwardBot.SOURCE_CHAT_ID cfg)
          else "Источник: любой")).

(** [os.environ]. *)
Definition environ : Type := gmap string string.

(** Truthiness of an [Optional[str]]: set and not empty. *)
Definition truthy_str (o : option string) : bool :=
  match o with
  | Some s => negb (String.eqb s "")
  | None => false
  end.

(** How the import of the module ends. *)
Inductive startup (A : Type) : Type :=
| Started (a : A)
| SystemExit (msg : string)
| Crashed (e : Py.exn).
Arguments Started {A} a.
Arguments SystemExit {A} msg.
Arguments Crashed {A} e.

Record settings : Type := {
  BOT_TOKEN : string;
  routing : ForwardBot.config;
  WEBHOOK_SECRET_TOKEN : string;
  APP_BASE_URL : string;
  PORT : Z
}.

(** Lines 11 to 20 of the module, in order: the three [int(...)] calls
    come before the check of the required settings.  [int_of_str] is the
    interpreter's [int] on strings. *)
Definition configure (int_of_str : string → option Z) (env : environ)
    : startup settings :=
  match int_of_str (default "0" (env !! "TARGET_CHAT_ID")) with
  | None => Crashed Py.ValueError
  | Some target =>
      match
        (if truthy_str (env !! "SOURCE_CHAT_ID") then
           match int_of_str (default "" (env !! "SOURCE_CHAT_ID")) with
           | Some s => inr (Some s)
           | None => inl Py.ValueError
           end
         else inr None)
      with
      | inl e => Crashed e
      | inr source =>
          match int_of_str (default "10000" (env !! "PORT")) with
          | None => Crashed Py.ValueError
          | Some port =>
              if negb (truthy_str (env !! "BOT_TOKEN"))
                 || negb (Py.truthy target)
                 || negb (truthy_str (env !! "APP_BASE_URL"))
              then SystemExit "Set BOT_TOKEN, TARGET_CHAT_ID, APP_BASE_URL env vars!"
              else
                Started
                  {| BOT_TOKEN := default "" (env !! "BOT_TOKEN");
                     routing :=
                       {| ForwardBot.TARGET_CHAT_ID := target;
                          ForwardBot.SOURCE_CHAT_ID := source |};
                     WEBHOOK_SECRET_TOKEN :=
                       default "use-long-random" (env !! "WEBHOOK_SECRET_TOKEN");
                     APP_BASE_URL := default "" (env !! "APP_BASE_URL");
                     PORT := port |}
          end
      end
  end.

End ForwardBotSetup.

(** ** The webhook endpoint, the same in both files *)

Module Webhook.

(** [s.rstrip("/")] *)
Fixpoint rstrip_slash (s : string) : string :=
  match s with
  | String c s' =>
      match rstrip_slash s' with
      | EmptyString =>
          if Ascii.eqb c "/"%char then EmptyString else String c EmptyString
      | r => String c r
      end
  | EmptyString => EmptyString
  end.

(** [WEBHOOK_PATH], the route the endpoint is mounted on. *)
Definition WEBHOOK_PATH (secret : string) : string := "/webhook/" +:+ secret.

(** The address given to [set_webhook] in [on_startup]. *)
Definition webhook_url (base secret : string) : string :=
  rstrip_slash base +:+ WEBHOOK_PATH secret.

(** What the endpoint looks at: the value of the
    [x-telegram-bot-api-secret-token] header, if there is one, and what
    decoding the body gives. *)
Record Request : Type := {
  secret_token_header : option string;
  body : Py.exn + Telegram.Update
}.

(** [HTTPException(status_code=401)] is what the client gets as a 401
    answer; the normal return is the body [{"ok": True}]. *)
Inductive Response : Type :=
| Unauthorized (detail : string)
| Ok_true.

Definition telegram_webhook (secret : string)
    (process_update : Telegram.Update → M unit) (req : Request) : M Response :=
  if negb (bool_decide (secret_token_header req = Some secret)) then
    mret (Unauthorized "Invalid secret token")
  else
    update ← lift (body req);
    process_update update;;
    mret Ok_true.

End Webhook.

(** [n] slashes in a row. *)
Fixpoint slashes (n : nat) : string :=
  match n with
  | O => EmptyString
  | S n' => String "/"%char (slashes n')
  end.

(** ** More fixtures *)

(** 100 and 200 linked, nothing on disk yet. *)
Definition paired : world := World {["100" := 200; "200" := 100]} Absent.

Definition human_in (cid mid : Z) : Telegram.Update :=
  update_of (private_chat cid) (from_human mid).

Definition link_args (arg : string) : Telegram.Context :=
  {| Telegram.args := [arg] |}.

(** An environment the forward-all bot starts in. *)
Definition example_environ : ForwardBotSetup.environ :=
  {["BOT_TOKEN" := "123:abc"; "TARGET_CHAT_ID" := "-1007";
    "APP_BASE_URL" := "https://bot.example/"]}.

Definition example_settings : ForwardBotSetup.settings :=
  {| ForwardBotSetup.BOT_TOKEN := "123:abc";
     ForwardBotSetup.routing :=
       {| ForwardBot.TARGET_CHAT_ID := -1007;
          ForwardBot.SOURCE_CHAT_ID := None |};
     ForwardBotSetup.WEBHOOK_SECRET_TOKEN := "use-long-random";
     ForwardBotSetup.APP_BASE_URL := "https://bot.example/";
     ForwardBotSetup.PORT := 10000 |}.

Definition good_request : Webhook.Request :=
  {| Webhook.secret_token_header := Some "s3cret";
     Webhook.body := inr (human_in 200 7) |}.

Definition bad_request : Webhook.Request :=
  {| Webhook.secret_token_header := Some "guess";
     Webhook.body := inr (human_in 200 7) |}.

(** * Properties *)

(** ** Python builtins *)

Lemma str_inj (a b : Z) : Py.str a = Py.str b → a = b.
Proof. unfold Py.str. apply (inj pretty). Qed.

Lemma str_ne (a b : Z) : a ≠ b → Py.str a ≠ Py.str b.
Proof. intros Hab Hs. apply Hab, str_inj, Hs. Qed.

Example str_100 : Py.str 100 = "100".
Proof. reflexivity. Qed.

Example str_supergroup : Py.str (-1001234567890) = "-1001234567890".
Proof. vm_compute. reflexivity. Qed.

Example int_abc : AsciiInt.int_of_str "abc" = None.
Proof. reflexivity. Qed.

Example int_grouped : AsciiInt.int_of_str " +1_200 " = Some 1200.
Proof. reflexivity. Qed.

Example int_negative : AsciiInt.int_of_str "-42" = Some (-42).
Proof. reflexivity. Qed.

Example int_double_underscore : AsciiInt.int_of_str "1__2" = None.
Proof. reflexivity. Qed.

(** *** [int(str(n)) == n] *)

Lemma pretty_N_char_digit (d : N) :
  (d < 10)%N →
  Ascii.eqb (pretty_N_char d) "_"%char = false
  ∧ AsciiInt.digit_val (pretty_N_char d) = Some (Z.of_N d)
  ∧ AsciiInt.is_space (pretty_N_char d) = false
  ∧ Ascii.eqb (pretty_N_char d) "-"%char = false
  ∧ Ascii.eqb (pretty_N_char d) "+"%char = false.
Proof.
  intros Hd.
  assert (d = 0 ∨ d = 1 ∨ d = 2 ∨ d = 3 ∨ d = 4 ∨ d = 5 ∨ d = 6 ∨ d = 7
          ∨ d = 8 ∨ d = 9)%N as Hcases by lia.
  repeat (destruct Hcases as [-> | Hcases]); try subst d;
    repeat split; reflexivity.
Qed.

Lemma digits_pretty_N_go (x : N) :
  (0 < x)%N → ∀ s b,
  AsciiInt.digits 0 b (pretty_N_go x s) = AsciiInt.digits (Z.of_N x) true s.
Proof.
  induction (N.lt_wf_0 x) as [x _ IH]. intros Hx s b.
  rewrite pretty_N_go_step by done.
  destruct (pretty_N_char_digit (x `mod` 10)%N) as (Hu & Hd & _);
    [now apply N.mod_lt|].
  assert (Hstep : ∀ acc b',
    AsciiInt.digits acc b' (String (pretty_N_char (x `mod` 10)%N) s)
    = AsciiInt.digits (10 * acc + Z.of_N (x `mod` 10)%N) true s).
  { intros acc b'. cbn [AsciiInt.digits]. now rewrite Hu, Hd. }
  assert (Hx' : Z.of_N x = 10 * Z.of_N (x `div` 10)%N + Z.of_N (x `mod` 10)%N).
  { rewrite (N.div_mod x 10) at 1 by done. lia. }
  destruct (decide (x `div` 10 = 0)%N) as [H0 | Hpos].
  - rewrite H0 in *. rewrite pretty_N_go_0, Hstep, Hx'. done.
  - rewrite IH; [|apply N.div_lt; lia|now apply N.neq_0_lt_0].
    rewrite Hstep, Hx'. done.
Qed.

Lemma pretty_N_go_head (x : N) :
  (0 < x)%N → ∀ s, ∃ d s',
    (d < 10)%N ∧ pretty_N_go x s = String (pretty_N_char d) s'.
Proof.
  induction (N.lt_wf_0 x) as [x _ IH]. intros Hx s.
  rewrite pretty_N_go_step by done.
  destruct (decide (x `div` 10 = 0)%N) as [H0 | Hpos].
  - rewrite H0, pretty_N_go_0. exists (x `mod` 10)%N, s.
    split; [now apply N.mod_lt | done].
  - apply IH; [apply N.div_lt; lia | now apply N.neq_0_lt_0].
Qed.

Lemma visible_pretty_N_go (x : N) (s : string) :
  visible s = true → visible (pretty_N_go x s) = true.
Proof.
  revert s. induction (N.lt_wf_0 x) as [x _ IH]. intros s Hs.
  destruct (decide (x = 0)%N) as [-> | Hx]; [now rewrite pretty_N_go_0|].
  assert (0 < x)%N by now apply N.neq_0_lt_0.
  rewrite pretty_N_go_step by done.
  apply IH; [apply N.div_lt; lia|].
  destruct (pretty_N_char_digit (x `mod` 10)%N) as (_ & _ & Hsp & _);
    [now apply N.mod_lt|].
  cbn [visible]. now rewrite Hsp, Hs.
Qed.

Lemma rstrip_visible (s : string) : visible s = true → AsciiInt.rstrip s = s.
Proof.
  induction s as [|c s IH]; [done|]. cbn [visible AsciiInt.rstrip].
  intros [Hc Hs]%andb_true_iff. rewrite (IH Hs).
  apply negb_true_iff in Hc. rewrite Hc. now destruct s.
Qed.

Lemma lstrip_visible (s : string) : visible s = true → AsciiInt.lstrip s = s.
Proof.
  destruct s as [|c s]; [done|]. cbn [visible AsciiInt.lstrip].
  intros [Hc _]%andb_true_iff. apply negb_true_iff in Hc. now rewrite Hc.
Qed.

Lemma int_of_str_pretty_N_go (x : N) :
  (0 < x)%N → AsciiInt.int_of_str (pretty_N_go x "") = Some (Z.of_N x).
Proof.
  intros Hx. unfold AsciiInt.int_of_str.
  assert (Hv : visible (pretty_N_go x "") = true)
    by now apply visible_pretty_N_go.
  rewrite (lstrip_visible _ Hv), (rstrip_visible _ Hv).
  pose proof (digits_pretty_N_go x Hx "" false) as Hd.
  destruct (pretty_N_go_head x Hx "") as (d & s' & Hlt & Hhead).
  destruct (pretty_N_char_digit d Hlt) as (_ & _ & _ & Hminus & Hplus).
  rewrite Hhead in *. now rewrite Hminus, Hplus.
Qed.

Lemma int_of_str_str (n : Z) : AsciiInt.int_of_str (Py.str n) = Some n.
Proof.
  unfold Py.str, pretty, pretty_Z. destruct n as [|p|p]; [done|..].
  - unfold pretty, pretty_positive, pretty, pretty_N.
    rewrite decide_False by done. now rewrite int_of_str_pretty_N_go.
  - unfold pretty, pretty_positive, pretty, pretty_N.
    rewrite decide_False by done.
    assert (Hv : visible (pretty_N_go (N.pos p) "") = true)
      by now apply visible_pretty_N_go.
    change ("-" +:+ pretty_N_go (N.pos p) "")
      with (String "-"%char (pretty_N_go (N.pos p) "")).
    assert (Hv' : visible (String "-"%char (pretty_N_go (N.pos p) "")) = true)
      by (cbn [visible]; now rewrite Hv).
    unfold AsciiInt.int_of_str.
    rewrite (lstrip_visible _ Hv'), (rstrip_visible _ Hv').
    change (Ascii.eqb "-" "-") with true. cbn iota.
    now rewrite digits_pretty_N_go.
Qed.

(** ** The store, one operation at a time *)

(** Unfolds a handler down to the pairs it returns. *)
Ltac unfold_M :=
  unfold result, exec, trace, run;
  unfold PairBot.set_pair, PairBot.unlink, PairBot.get_partner,
    PairBot.setitem, PairBot.pop, PairBot.save_pairs, PairBot.write_file;
  unfold try_except, api, log, lift, raise, get_world, set_pairs_dict, ask;
  unfold mbind, mret, M_bind, M_ret, bind, ret;
  cbn.

Ltac case_write env :=
  destruct (write_raises env _ _) as [[? ?]|]; cbn.

Section Store.
Context (env : platform).
Implicit Types (w : world) (a b c x : Z).

(** [save_pairs] swallows every failure and never touches the dictionary. *)
Lemma save_pairs_returns w : result env PairBot.save_pairs w = Ret tt.
Proof. unfold_M. case_write env; reflexivity. Qed.

Lemma save_pairs_dict w : _pairs (exec env PairBot.save_pairs w) = _pairs w.
Proof. unfold_M. case_write env; reflexivity. Qed.

Lemma set_pair_returns a b w : result env (PairBot.set_pair a b) w = Ret tt.
Proof. unfold_M. case_write env; reflexivity. Qed.

Lemma set_pair_dict a b w :
  _pairs (exec env (PairBot.set_pair a b) w)
  = <[Py.str b := a]> (<[Py.str a := b]> (_pairs w)).
Proof. unfold_M. case_write env; reflexivity. Qed.

Lemma unlink_returns a w :
  result env (PairBot.unlink a) w = Ret (_pairs w !! Py.str a).
Proof.
  unfold_M. destruct (_pairs w !! Py.str a) as [b|]; cbn;
    case_write env; reflexivity.
Qed.

Lemma unlink_dict a w :
  _pairs (exec env (PairBot.unlink a) w)
  = match _pairs w !! Py.str a with
    | Some b => delete (Py.str b) (delete (Py.str a) (_pairs w))
    | None => delete (Py.str a) (_pairs w)
    end.
Proof.
  unfold_M. destruct (_pairs w !! Py.str a) as [b|]; cbn;
    case_write env; reflexivity.
Qed.

Lemma get_partner_result a w :
  result env (PairBot.get_partner a) w = Ret (_pairs w !! Py.str a).
Proof. reflexivity. Qed.

End Store.

(** ** What is saved is what is loaded *)

Lemma comprehension_ints (f : string → option Z) (l : list (string * Z))
    (acc : gmap string Z) :
  PairBot.comprehension f acc ((λ kv, (kv.1, Py.JInt kv.2)) <$> l)
  = inr (foldl (λ d kv, <[kv.1 := kv.2]> d) acc l).
Proof.
  revert acc. induction l as [|[k v] l IH]; intros acc; [done|].
  cbn. apply IH.
Qed.

Lemma foldl_insert_list_to_map (l : list (string * Z)) :
  foldl (λ d kv, <[kv.1 := kv.2]> d) (∅ : gmap string Z) l
  = list_to_map (reverse l).
Proof.
  induction l as [|[k v] l IH] using rev_ind; [done|].
  rewrite foldl_snoc, reverse_snoc, IH. done.
Qed.

Lemma comprehension_dump (f : string → option Z) (d : gmap string Z) :
  Py.items (PairBot.dump d) = inr ((λ kv, (kv.1, Py.JInt kv.2)) <$> map_to_list d)
  ∧ PairBot.comprehension f ∅ ((λ kv, (kv.1, Py.JInt kv.2)) <$> map_to_list d)
    = inr d.
Proof.
  split; [done|].
  rewrite comprehension_ints, foldl_insert_list_to_map. f_equal.
  rewrite <- (list_to_map_to_list d) at 2.
  symmetry. apply list_to_map_proper.
  - apply NoDup_fst_map_to_list.
  - symmetry. apply reverse_Permutation.
Qed.

Section Persistence.
Context (env : platform).

(** After a write that went through, a restart finds the same pairs. *)
Lemma load_pairs_after_save (w : world) :
  write_raises env (PairBot.dump (_pairs w)) (PAIRS_FILE w) = None →
  _pairs (exec env PairBot.load_pairs (exec env PairBot.save_pairs w))
  = _pairs w.
Proof.
  intros Hok.
  assert (Hsaved : exec env PairBot.save_pairs w
                   = World (_pairs w) (Holds (PairBot.dump (_pairs w)))).
  { unfold_M. now rewrite Hok. }
  rewrite Hsaved.
  destruct (comprehension_dump (int_of_str env) (_pairs w)) as [_ Hload].
  unfold exec, run, PairBot.load_pairs.
  unfold try_except, log, lift, raise, get_world, set_pairs_dict, ask.
  unfold mbind, mret, M_bind, M_ret, bind, ret. cbn.
  now rewrite Hload.
Qed.

(** A write that fails is logged and leaves the dictionary as it is. *)
Lemma save_pairs_failure (w : world) (e : Py.exn) (rest : file_state) :
  write_raises env (PairBot.dump (_pairs w)) (PAIRS_FILE w) = Some (e, rest) →
  run env PairBot.save_pairs w
  = (Ret tt, World (_pairs w) rest,
     [write_pairs (PairBot.dump (_pairs w));
      log_exception "Failed to save pairs: %s"]).
Proof. intros Hfail. unfold_M. now rewrite Hfail. Qed.

End Persistence.

(** ** Where symmetry does hold *)

Section Symmetry.
Context (env : platform).
Implicit Types (w : world) (a b : Z).

Lemma symmetric_dict w :
  symmetric env w
  ↔ ∀ A B, _pairs w !! Py.str A = Some B → _pairs w !! Py.str B = Some A.
Proof.
  unfold symmetric. setoid_rewrite get_partner_result.
  split; intros H A B HA.
  - specialize (H A B). rewrite HA in H. specialize (H eq_refl). congruence.
  - injection HA as HA. now rewrite (H A B HA).
Qed.

Lemma symmetric_empty f : symmetric env (World ∅ f).
Proof. apply symmetric_dict. intros A B. cbn. now rewrite lookup_empty. Qed.

(** [unlink] keeps a symmetric store symmetric. *)
Lemma symmetric_unlink a w :
  symmetric env w → symmetric env (exec env (PairBot.unlink a) w).
Proof.
  rewrite !symmetric_dict, unlink_dict. intros Hsym A B.
  destruct (_pairs w !! Py.str a) as [b|] eqn:Ha.
  - intros HAB.
    apply lookup_delete_Some in HAB as [HAb HAB].
    apply lookup_delete_Some in HAB as [HAa HAB].
    pose proof (Hsym _ _ HAB) as HBA. pose proof (Hsym _ _ Ha) as Hba.
    rewrite !lookup_delete_ne; [done|..].
    + intros HaB. apply str_inj in HaB. subst B.
      rewrite Ha in HBA. congruence.
    + intros HbB. apply str_inj in HbB. subst B.
      rewrite Hba in HBA. congruence.
  - rewrite delete_id by done. apply Hsym.
Qed.

(** [set_pair(a, b)] keeps a symmetric store symmetric when neither [a]
    nor [b] has a partner other than the other one. *)
Lemma symmetric_set_pair a b w :
  (∀ c, _pairs w !! Py.str a = Some c → c = b) →
  (∀ c, _pairs w !! Py.str b = Some c → c = a) →
  symmetric env w → symmetric env (exec env (PairBot.set_pair a b) w).
Proof.
  rewrite !symmetric_dict, set_pair_dict. intros Hfa Hfb Hsym A B.
  destruct (decide (A = b)) as [-> | HAb].
  { rewrite lookup_insert_eq. intros [= <-].
    destruct (decide (a = b)) as [-> | Hab]; [apply lookup_insert_eq|].
    rewrite lookup_insert_ne by (apply str_ne; congruence).
    apply lookup_insert_eq. }
  rewrite lookup_insert_ne by (apply str_ne; congruence).
  destruct (decide (A = a)) as [-> | HAa].
  { rewrite lookup_insert_eq. intros [= <-]. apply lookup_insert_eq. }
  rewrite lookup_insert_ne by (apply str_ne; congruence).
  intros HAB. pose proof (Hsym _ _ HAB) as HBA.
  rewrite !lookup_insert_ne; [done|..].
  - intros HaB. apply str_inj in HaB. subst B. apply Hfa in HBA. congruence.
  - intros HbB. apply str_inj in HbB. subst B. apply Hfb in HBA. congruence.
Qed.

(** Dissolving both old pairings first makes any link safe. *)
Lemma symmetric_unlink_then_set_pair a b w :
  symmetric env w →
  symmetric env
    (exec env (PairBot.set_pair a b)
       (exec env (PairBot.unlink b) (exec env (PairBot.unlink a) w))).
Proof.
  intros Hsym.
  assert (Hgone : ∀ x v, _pairs (exec env (PairBot.unlink x) v) !! Py.str x
                         = None).
  { intros x v. rewrite unlink_dict.
    destruct (_pairs v !! Py.str x) as [y|].
    - destruct (decide (Py.str y = Py.str x)) as [-> | Hne];
        [apply lookup_delete_eq|].
      rewrite lookup_delete_ne by done. apply lookup_delete_eq.
    - apply lookup_delete_eq. }
  assert (Hstay : ∀ x y v, _pairs v !! Py.str y = None →
                    _pairs (exec env (PairBot.unlink x) v) !! Py.str y = None).
  { intros x y v Hy. rewrite unlink_dict.
    destruct (_pairs v !! Py.str x) as [z|];
      rewrite ?lookup_delete_None; tauto. }
  apply symmetric_set_pair.
  - intros c Hc. rewrite (Hstay b a) in Hc by apply Hgone. discriminate.
  - intros c Hc. rewrite Hgone in Hc. discriminate.
  - now do 2 apply symmetric_unlink.
Qed.

End Symmetry.

(** ** Replies, and the checks of [/link] *)

Section Replies.
Context (env : platform).
Implicit Types (w : world) (u : Telegram.Update) (ctx : Telegram.Context).

Lemma reply_run kind u text w :
  run env (reply kind u text) w
  = match Telegram.message u with
    | Some _ => (outcome env (kind (sender u) text), w, [kind (sender u) text])
    | None => (Raise Py.AttributeError, w, [])
    end.
Proof.
  unfold run, reply, sender, outcome, api, raise.
  destruct (Telegram.message u); [|done]. now destruct (bot_raises env _).
Qed.

Lemma link_cmd_no_argument u ctx w :
  Telegram.args ctx = [] →
  run env (PairBot.link_cmd u ctx) w
  = run env (reply reply_text u PairBot.MSG_PROVIDE_ID) w.
Proof. intros Hargs. unfold run, PairBot.link_cmd. now rewrite Hargs. Qed.

Lemma link_cmd_not_a_number u ctx arg rest w :
  Telegram.args ctx = arg :: rest → int_of_str env arg = None →
  run env (PairBot.link_cmd u ctx) w
  = run env (reply reply_text u PairBot.MSG_MUST_BE_NUMBER) w.
Proof.
  intros Hargs Hint. unfold run, PairBot.link_cmd. rewrite Hargs.
  unfold mbind, M_bind, bind, ask. rewrite Hint.
  destruct (reply _ _ _ env w) as [[r w'] t]. done.
Qed.

Lemma link_cmd_own_id_argument u ctx arg rest w :
  Telegram.args ctx = arg :: rest → int_of_str env arg = Some (sender u) →
  run env (PairBot.link_cmd u ctx) w
  = run env (reply reply_text u PairBot.MSG_NOT_YOURSELF) w.
Proof.
  intros Hargs Hint. unfold run, PairBot.link_cmd. rewrite Hargs.
  unfold mbind, M_bind, bind, ask. rewrite Hint.
  unfold sender. rewrite bool_decide_true by done.
  destruct (reply _ _ _ env w) as [[r w'] t]. done.
Qed.

End Replies.

(** ** The store: lookups after each operation *)

Section StoreOperations.
Context (env : platform).
Implicit Types (w : world) (a b c x : Z).

(** C3. For all identities [a ≠ b] and every store state, right after
    [set_pair(a, b)] the lookups give [get_partner(a) == b] and
    [get_partner(b) == a]. *)
Theorem set_pair_then_get_partner a b w :
  a ≠ b →
  result env (PairBot.set_pair a b) w = Ret tt
  ∧ result env (PairBot.get_partner a) (exec env (PairBot.set_pair a b) w)
    = Ret (Some b)
  ∧ result env (PairBot.get_partner b) (exec env (PairBot.set_pair a b) w)
    = Ret (Some a).
Proof.
  intros Hab. split; [apply set_pair_returns|].
  rewrite !get_partner_result, set_pair_dict.
  split; f_equal.
  - rewrite lookup_insert_ne by (apply str_ne; congruence).
    apply lookup_insert_eq.
  - apply lookup_insert_eq.
Qed.

(** C1. The symmetry invariant (whenever [get_partner(A) == B] also
    [get_partner(B) == A]) is lost in a reachable state: after
    [set_pair(1, 2)] and then [set_pair(1, 3)] the store still answers
    [get_partner(2) == 1] while [get_partner(1) == 3]. *)
Theorem relink_breaks_symmetry :
  reachable env (relinked env)
  ∧ result env (PairBot.get_partner 2) (relinked env) = Ret (Some 1)
  ∧ result env (PairBot.get_partner 1) (relinked env) = Ret (Some 3)
  ∧ ¬ symmetric env (relinked env).
Proof.
  assert (Hd : _pairs (relinked env)
               = <[Py.str 3 := 1]> (<[Py.str 1 := 3]>
                   (<[Py.str 2 := 1]> (<[Py.str 1 := 2]> ∅)))).
  { unfold relinked, perform_all, perform. cbn [foldl].
    now rewrite !set_pair_dict. }
  assert (H2 : result env (PairBot.get_partner 2) (relinked env)
               = Ret (Some 1)).
  { rewrite get_partner_result, Hd. reflexivity. }
  assert (H1 : result env (PairBot.get_partner 1) (relinked env)
               = Ret (Some 3)).
  { rewrite get_partner_result, Hd. reflexivity. }
  repeat split; [|exact H2|exact H1|].
  - unfold relinked, perform_all. cbn [foldl].
    apply (reachable_step env _ (SetPair 1 3)); [|cbn; lia].
    apply (reachable_step env _ (SetPair 1 2)); [|cbn; lia].
    constructor.
  - intros Hsym. specialize (Hsym 2 1 H2). rewrite H1 in Hsym.
    discriminate Hsym.
Qed.

(** C2. When [a] is paired with [c] and [set_pair(a, b)] gives [a] a new
    partner [b], the old partner's reverse entry stays: afterwards
    [get_partner(c)] is still [a], not none. *)
Theorem set_pair_keeps_old_reverse_entry a b c w :
  c ≠ a → c ≠ b →
  result env (PairBot.get_partner a) w = Ret (Some c) →
  result env (PairBot.get_partner c) w = Ret (Some a) →
  result env (PairBot.get_partner a) (exec env (PairBot.set_pair a b) w)
    = Ret (Some b)
  ∧ result env (PairBot.get_partner c) (exec env (PairBot.set_pair a b) w)
    = Ret (Some a).
Proof.
  intros Hca Hcb _ Hc. rewrite !get_partner_result in *.
  rewrite set_pair_dict. split; f_equal.
  - destruct (decide (a = b)) as [->|Hab].
    + apply lookup_insert_eq.
    + rewrite lookup_insert_ne by (apply str_ne; congruence).
      apply lookup_insert_eq.
  - rewrite !lookup_insert_ne by (apply str_ne; congruence).
    congruence.
Qed.

(** C4. [unlink(a)] returns the partner recorded for [a] (none when
    there is none) and never raises; afterwards [get_partner(a)] is none
    and, when a partner [b] was returned, [get_partner(b)] is none too;
    when [a] had no pairing the dictionary is unchanged; a second
    [unlink(a)] in a row returns none. *)
Theorem unlink_postcondition a w :
  ∃ r : option Z,
    result env (PairBot.get_partner a) w = Ret r
    ∧ result env (PairBot.unlink a) w = Ret r
    ∧ result env (PairBot.get_partner a) (exec env (PairBot.unlink a) w)
      = Ret None
    ∧ (∀ b, r = Some b →
         result env (PairBot.get_partner b) (exec env (PairBot.unlink a) w)
         = Ret None)
    ∧ (r = None → _pairs (exec env (PairBot.unlink a) w) = _pairs w)
    ∧ result env (PairBot.unlink a) (exec env (PairBot.unlink a) w)
      = Ret None.
Proof.
  exists (_pairs w !! Py.str a).
  assert (Ha : _pairs (exec env (PairBot.unlink a) w) !! Py.str a = None).
  { rewrite unlink_dict. destruct (_pairs w !! Py.str a) as [b|] eqn:E.
    - destruct (decide (Py.str b = Py.str a)) as [->|Hne].
      + apply lookup_delete_eq.
      + rewrite lookup_delete_ne by done. apply lookup_delete_eq.
    - apply lookup_delete_eq. }
  split; [apply get_partner_result|].
  split; [apply unlink_returns|].
  split; [rewrite get_partner_result; now f_equal|].
  split; [|split].
  - intros b Hb. rewrite get_partner_result, unlink_dict, Hb. f_equal.
    apply lookup_delete_eq.
  - intros Hnone. rewrite unlink_dict, Hnone. now apply delete_id.
  - rewrite unlink_returns. now f_equal.
Qed.

(** C9. The store does not check [a != b]: [set_pair(a, a)] returns
    normally and leaves [get_partner(a) == a], in every store state.  The
    only guard is in the link command, which answers with the rejection
    and touches nothing when the argument reads as the sender's own id. *)
Theorem set_pair_accepts_self a w :
  (result env (PairBot.set_pair a a) w = Ret tt
   ∧ result env (PairBot.get_partner a) (exec env (PairBot.set_pair a a) w)
     = Ret (Some a))
  ∧ ∀ (msg : Telegram.Message) (arg : string) (rest : list string),
      int_of_str env arg = Some a →
      exec env (PairBot.link_cmd (update_of (private_chat a) msg)
                  {| Telegram.args := arg :: rest |}) w = w
      ∧ trace env (PairBot.link_cmd (update_of (private_chat a) msg)
                     {| Telegram.args := arg :: rest |}) w
        = [reply_text a PairBot.MSG_NOT_YOURSELF].
Proof.
  split.
  - split; [apply set_pair_returns|].
    rewrite get_partner_result, set_pair_dict. f_equal.
    apply lookup_insert_eq.
  - intros msg arg rest Harg.
    unfold exec, trace.
    rewrite (link_cmd_own_id_argument env (update_of (private_chat a) msg)
               {| Telegram.args := arg :: rest |} arg rest w eq_refl Harg).
    rewrite reply_run. done.
Qed.

(** C10. In an asymmetric state with [get_partner(a) == b] and
    [get_partner(b) == c], [c != a], [unlink(a)] returns [b] and removes
    the entries of [a] and of [b] whatever [b] pointed at; the entry of
    every identity other than [a] and [b] is unchanged, so an entry of
    [c] that pointed at [b] still does. *)
Theorem unlink_removes_partner_entry a b c w :
  result env (PairBot.get_partner a) w = Ret (Some b) →
  result env (PairBot.get_partner b) w = Ret (Some c) →
  c ≠ a →
  result env (PairBot.unlink a) w = Ret (Some b)
  ∧ result env (PairBot.get_partner a) (exec env (PairBot.unlink a) w)
    = Ret None
  ∧ result env (PairBot.get_partner b) (exec env (PairBot.unlink a) w)
    = Ret None
  ∧ ∀ x, x ≠ a → x ≠ b →
      result env (PairBot.get_partner x) (exec env (PairBot.unlink a) w)
      = result env (PairBot.get_partner x) w.
Proof.
  rewrite !get_partner_result. intros [= Ha] [= Hb] Hca.
  assert (Hab : a ≠ b) by (intros ->; congruence).
  rewrite unlink_returns, unlink_dict, Ha.
  split; [done|]. split; [|split].
  - f_equal. rewrite lookup_delete_ne by (apply str_ne; congruence).
    apply lookup_delete_eq.
  - f_equal. apply lookup_delete_eq.
  - intros x Hxa Hxb. rewrite !get_partner_result, unlink_dict, Ha. f_equal.
    rewrite !lookup_delete_ne by (apply str_ne; congruence). done.
Qed.

End StoreOperations.

Lemma set_pair_then_get_partner_witness :
  100 ≠ 200
  ∧ result quiet (PairBot.get_partner 100)
      (exec quiet (PairBot.set_pair 100 200) fresh) = Ret (Some 200)
  ∧ result quiet (PairBot.get_partner 200)
      (exec quiet (PairBot.set_pair 100 200) fresh) = Ret (Some 100).
Proof.
  split; [lia|].
  apply (set_pair_then_get_partner quiet 100 200 fresh). lia.
Defined.

Lemma set_pair_keeps_old_reverse_entry_witness :
  result quiet (PairBot.get_partner 1)
    (exec quiet (PairBot.set_pair 1 3) (exec quiet (PairBot.set_pair 1 2) fresh))
  = Ret (Some 3)
  ∧ result quiet (PairBot.get_partner 2)
      (exec quiet (PairBot.set_pair 1 3) (exec quiet (PairBot.set_pair 1 2) fresh))
    = Ret (Some 1).
Proof.
  apply (set_pair_keeps_old_reverse_entry quiet 1 3 2
           (exec quiet (PairBot.set_pair 1 2) fresh));
    [lia | lia | reflexivity | reflexivity].
Defined.

(** [1 -> 2], [2 -> 3], [3 -> 2]: the state two links in a row leave. *)
Lemma unlink_removes_partner_entry_witness :
  result quiet (PairBot.unlink 1) (perform_all quiet [SetPair 1 2; SetPair 2 3] fresh)
  = Ret (Some 2)
  ∧ result quiet (PairBot.get_partner 3)
      (exec quiet (PairBot.unlink 1)
         (perform_all quiet [SetPair 1 2; SetPair 2 3] fresh))
    = Ret (Some 2).
Proof.
  destruct (unlink_removes_partner_entry quiet 1 2 3
              (perform_all quiet [SetPair 1 2; SetPair 2 3] fresh))
    as (Hr & _ & _ & Hframe); [reflexivity | reflexivity | lia |].
  split; [exact Hr|].
  rewrite Hframe by lia. reflexivity.
Defined.

(** ** The handlers *)

Section Handlers.
Context (env : platform).
Implicit Types (w : world) (u : Telegram.Update) (ctx : Telegram.Context).

Lemma api_exec c w : exec env (api c) w = w.
Proof. unfold exec, run, api. now destruct (bot_raises env c). Qed.

Lemma api_trace c w : trace env (api c) w = [c].
Proof. unfold trace, run, api. now destruct (bot_raises env c). Qed.

(** C5. With no argument, with an argument that [int] refuses, and with
    the sender's own id, the link command leaves the store and the file as
    they are and writes nothing.  When the command came as a new message,
    the reply with the matching text ("provide an id", "must be a
    number", the rejection) is the only call made.  When it came as an
    edit, [update.message] is [None]: nothing is sent to the user and the
    handler raises [AttributeError]. *)
Theorem link_cmd_rejects_bad_arguments u ctx w text :
  (Telegram.args ctx = [] ∧ text = PairBot.MSG_PROVIDE_ID)
  ∨ (∃ arg rest,
       Telegram.args ctx = arg :: rest ∧ int_of_str env arg = None
       ∧ text = PairBot.MSG_MUST_BE_NUMBER)
  ∨ (∃ arg rest,
       Telegram.args ctx = arg :: rest
       ∧ int_of_str env arg = Some (sender u)
       ∧ text = PairBot.MSG_NOT_YOURSELF) →
  run env (PairBot.link_cmd u ctx) w
  = match Telegram.message u with
    | Some _ =>
        (outcome env (reply_text (sender u) text), w,
         [reply_text (sender u) text])
    | None => (Raise Py.AttributeError, w, [])
    end.
Proof.
  intros [[Hargs ->] | [(arg & rest & Hargs & Hint & ->)
                       | (arg & rest & Hargs & Hint & ->)]].
  - rewrite link_cmd_no_argument by done. apply reply_run.
  - rewrite (link_cmd_not_a_number env u ctx arg rest) by done.
    apply reply_run.
  - rewrite (link_cmd_own_id_argument env u ctx arg rest) by done.
    apply reply_run.
Qed.

(** C6, as the code has it.  [relay_messages] delivers nothing when the
    sender has no partner, when the chat is not private, and when the
    message was written by a bot.  For a private chat and a human author
    whose recorded partner is not 0, it delivers nothing exactly when
    [get_partner(sender)] is none, and with a partner [p] it attempts one
    copy of the message, to [p], and leaves the store alone. *)
Theorem relay_messages_delivers_iff_partner u w :
  (result env (PairBot.get_partner (sender u)) w = Ret None →
     copies (trace env (PairBot.relay_messages u) w) = [])
  ∧ (is_private u = false ∨ written_by_bot u = true →
     copies (trace env (PairBot.relay_messages u) w) = [])
  ∧ (is_private u = true → written_by_bot u = false →
     result env (PairBot.get_partner (sender u)) w ≠ Ret (Some 0) →
     (copies (trace env (PairBot.relay_messages u) w) = []
      ↔ result env (PairBot.get_partner (sender u)) w = Ret None)
     ∧ ∀ p, result env (PairBot.get_partner (sender u)) w = Ret (Some p) →
         exec env (PairBot.relay_messages u) w = w
         ∧ copies (trace env (PairBot.relay_messages u) w)
           = [(p, sender u, Telegram.message_id (Telegram.effective_message u))]).
Proof.
  rewrite !get_partner_result.
  assert (Hcopy : ∀ p,
    _pairs w !! Py.str (sender u) = Some p → p ≠ 0 →
    is_private u = true → written_by_bot u = false →
    exec env (PairBot.relay_messages u) w = w
    ∧ copies (trace env (PairBot.relay_messages u) w)
      = [(p, sender u, Telegram.message_id (Telegram.effective_message u))]).
  { intros p Hp Hp0 Hpriv Hbot.
    unfold is_private, written_by_bot, sender in *.
    unfold exec, trace, run, PairBot.relay_messages.
    rewrite Hpriv, Hbot. unfold_M. rewrite Hp. unfold Py.truthy_opt, Py.truthy.
    rewrite (proj2 (Z.eqb_neq p 0) Hp0). cbn.
    destruct (bot_raises env _); cbn; done. }
  split; [|split].
  - intros [= Hnone]. unfold sender in Hnone.
    unfold trace, run, PairBot.relay_messages.
    destruct (negb _); [done|]. destruct (match Telegram.from_user _ with
                                          | Some _ => _ | None => _ end);
      [done|].
    unfold_M. now rewrite Hnone.
  - unfold is_private, written_by_bot.
    unfold trace, run, PairBot.relay_messages.
    intros [Hpriv | Hbot].
    + now rewrite Hpriv.
    + rewrite Hbot. now destruct (negb _).
  - intros Hpriv Hbot Hzero.
    destruct (_pairs w !! Py.str (sender u)) as [p|] eqn:Hp.
    + assert (Hp0 : p ≠ 0) by (intros ->; now apply Hzero).
      destruct (Hcopy p eq_refl Hp0 Hpriv Hbot) as [Hw Hc].
      split.
      * rewrite Hc. split; intros; discriminate.
      * intros q [= <-]. now split.
    + split; [|intros q; discriminate].
      split; [done|]. intros _.
      unfold is_private, written_by_bot, sender in *.
      unfold trace, run, PairBot.relay_messages.
      rewrite Hpriv, Hbot. unfold_M. now rewrite Hp.
Qed.

(** C7, as the code has it.  [forward_all] delivers nothing when a
    non-zero source restriction is set and the sender's chat differs from
    it, and nothing when the sender's chat is the target; otherwise,
    which includes a restriction of 0 since that counts as none, it
    attempts one copy to the target and nothing else. *)
Theorem forward_all_routing (cfg : ForwardBot.config) u w :
  (∀ s, ForwardBot.SOURCE_CHAT_ID cfg = Some s → s ≠ 0 → sender u ≠ s →
     trace env (ForwardBot.forward_all cfg u) w = [])
  ∧ (sender u = ForwardBot.TARGET_CHAT_ID cfg →
     trace env (ForwardBot.forward_all cfg u) w = [])
  ∧ ((ForwardBot.SOURCE_CHAT_ID cfg = None
      ∨ ForwardBot.SOURCE_CHAT_ID cfg = Some 0
      ∨ ForwardBot.SOURCE_CHAT_ID cfg = Some (sender u)) →
     sender u ≠ ForwardBot.TARGET_CHAT_ID cfg →
     trace env (ForwardBot.forward_all cfg u) w
     = [copy_message (ForwardBot.TARGET_CHAT_ID cfg) (sender u)
          (Telegram.message_id (Telegram.effective_message u))])
  ∧ exec env (ForwardBot.forward_all cfg u) w = w.
Proof.
  unfold sender, exec, trace, run, ForwardBot.forward_all.
  split; [|split; [|split]].
  - intros s -> Hs Hne. unfold Py.truthy_opt, Py.truthy.
    rewrite (proj2 (Z.eqb_neq s 0) Hs).
    rewrite bool_decide_false by congruence. done.
  - intros ->. rewrite Z.eqb_refl. now destruct (_ && _).
  - intros Hsrc Hne.
    rewrite (proj2 (Z.eqb_neq _ _) Hne).
    destruct Hsrc as [-> | [-> | ->]]; cbn;
      rewrite ?bool_decide_true, ?andb_false_r by done; cbn;
      unfold api; now destruct (bot_raises env _).
  - destruct (_ && _); [done|].
    destruct (_ =? _); [done|].
    unfold api; now destruct (bot_raises env _).
Qed.

(** C8. [load_pairs] never raises.  With no file, with a file that
    cannot be opened or decoded, with a decoded document that has no
    [items()], and with a member whose value [int()] refuses, it leaves
    the empty store; with the file [{"100": 200, "200": 100}] it leaves
    [get_partner(100) == 200] and [get_partner(200) == 100]. *)
Theorem load_pairs_fails_soft w :
  result env PairBot.load_pairs w = Ret tt
  ∧ (PAIRS_FILE w = Absent → _pairs (exec env PairBot.load_pairs w) = ∅)
  ∧ (∀ e, PAIRS_FILE w = Unreadable e →
       _pairs (exec env PairBot.load_pairs w) = ∅)
  ∧ (∀ j e, PAIRS_FILE w = Holds j →
       (Py.items j = inl e
        ∨ ∃ members, Py.items j = inr members
                     ∧ PairBot.comprehension (int_of_str env) ∅ members
                       = inl e) →
       _pairs (exec env PairBot.load_pairs w) = ∅)
  ∧ (PAIRS_FILE w = Holds pairs_100_200 →
       result env (PairBot.get_partner 100) (exec env PairBot.load_pairs w)
       = Ret (Some 200)
       ∧ result env (PairBot.get_partner 200) (exec env PairBot.load_pairs w)
         = Ret (Some 100)).
Proof.
  unfold result, exec, run, PairBot.load_pairs.
  unfold try_except, log, lift, raise, get_world, set_pairs_dict, ask.
  unfold mbind, mret, M_bind, M_ret, bind, ret.
  split; [|split; [|split; [|split]]].
  - destruct (PAIRS_FILE w) as [|e|j]; cbn; [done..|].
    destruct (Py.items j) as [e|members]; cbn; [done|].
    now destruct (PairBot.comprehension (int_of_str env) ∅ members).
  - now intros ->.
  - now intros e ->.
  - intros j e -> [Hitems | (members & Hitems & Hcomp)]; cbn;
      rewrite Hitems; cbn; [done|]. now rewrite Hcomp.
  - now intros ->.
Qed.

End Handlers.

(** ** Concrete runs *)

(** [/link abc] as a new message is answered; the same command arriving
    as an edit of a message is not. *)
Lemma link_cmd_rejects_bad_arguments_witness :
  run quiet (PairBot.link_cmd (update_of (private_chat 100) (from_human 1))
               {| Telegram.args := ["abc"] |}) fresh
  = (Ret tt, fresh, [reply_text 100 PairBot.MSG_MUST_BE_NUMBER])
  ∧ run quiet (PairBot.link_cmd
                 (edited (update_of (private_chat 100) (from_human 1)))
                 {| Telegram.args := ["abc"] |}) fresh
    = (Raise Py.AttributeError, fresh, []).
Proof.
  split.
  - apply (link_cmd_rejects_bad_arguments quiet
             (update_of (private_chat 100) (from_human 1))
             {| Telegram.args := ["abc"] |} fresh PairBot.MSG_MUST_BE_NUMBER).
    right. left. exists "abc", []. repeat split; reflexivity.
  - apply (link_cmd_rejects_bad_arguments quiet
             (edited (update_of (private_chat 100) (from_human 1)))
             {| Telegram.args := ["abc"] |} fresh PairBot.MSG_MUST_BE_NUMBER).
    right. left. exists "abc", []. repeat split; reflexivity.
Defined.

(** C6 as stated fails: the group [-100] has a partner, and a message in
    the group is not delivered. *)
Lemma relay_messages_group_counterexample :
  ¬ (copies (trace quiet (PairBot.relay_messages group_message) group_linked) = []
     ↔ result quiet (PairBot.get_partner (sender group_message)) group_linked
       = Ret None).
Proof.
  intros [Hnone _]. specialize (Hnone eq_refl). discriminate Hnone.
Qed.

(** Participant 100 runs [/link 200]; a message of 200 is then copied into
    the conversation 100. *)
Lemma relay_messages_delivers_iff_partner_witness :
  copies (trace quiet
            (PairBot.relay_messages (update_of (private_chat 200) (from_human 7)))
            (exec quiet
               (PairBot.link_cmd (update_of (private_chat 100) (from_human 1))
                  {| Telegram.args := ["200"] |}) fresh))
  = [(100, 200, 7)].
Proof.
  destruct (relay_messages_delivers_iff_partner quiet
              (update_of (private_chat 200) (from_human 7))
              (exec quiet
                 (PairBot.link_cmd (update_of (private_chat 100) (from_human 1))
                    {| Telegram.args := ["200"] |}) fresh))
    as (_ & _ & Hpaired).
  destruct Hpaired as [_ Hcopy]; [reflexivity | reflexivity | discriminate |].
  apply (Hcopy 100). reflexivity.
Defined.

(** C7 as stated fails: with the restriction set to 0, a message of chat 5
    is copied to the target. *)
Lemma forward_all_source_zero_counterexample :
  ¬ (∀ s, ForwardBot.SOURCE_CHAT_ID source_zero = Some s →
          sender (update_of (private_chat 5) (from_human 1)) ≠ s →
          trace quiet
            (ForwardBot.forward_all source_zero
               (update_of (private_chat 5) (from_human 1))) fresh = []).
Proof.
  intros H. specialize (H 0 eq_refl). cbn in H.
  assert (H5 : 5 ≠ 0) by lia. specialize (H H5). discriminate H.
Qed.

Lemma forward_all_routing_witness :
  trace quiet (ForwardBot.forward_all (restricted_to 9)
                 (update_of (private_chat 5) (from_human 1))) fresh = []
  ∧ trace quiet (ForwardBot.forward_all (restricted_to 9)
                   (update_of (private_chat 9) (from_human 3))) fresh
    = [copy_message 7 9 3].
Proof.
  split.
  - destruct (forward_all_routing quiet (restricted_to 9)
                (update_of (private_chat 5) (from_human 1)) fresh)
      as (Hsrc & _).
    apply (Hsrc 9); [reflexivity | lia | cbn; lia].
  - destruct (forward_all_routing quiet (restricted_to 9)
                (update_of (private_chat 9) (from_human 3)) fresh)
      as (_ & _ & Hcopy & _).
    apply Hcopy; [right; right; reflexivity | cbn; lia].
Defined.

Lemma load_pairs_fails_soft_witness :
  result hostile PairBot.load_pairs (World {["1" := 2]} (Holds pairs_100_200))
  = Ret tt
  ∧ result hostile (PairBot.get_partner 100)
      (exec hostile PairBot.load_pairs (World {["1" := 2]} (Holds pairs_100_200)))
    = Ret (Some 200)
  ∧ _pairs (exec hostile PairBot.load_pairs
              (World {["1" := 2]} (Unreadable Py.JSONDecodeError))) = ∅.
Proof.
  destruct (load_pairs_fails_soft hostile
              (World {["1" := 2]} (Holds pairs_100_200)))
    as (Hret & _ & _ & _ & Hload).
  destruct (load_pairs_fails_soft hostile
              (World {["1" := 2]} (Unreadable Py.JSONDecodeError)))
    as (_ & _ & Hbad & _).
  split; [exact Hret|]. split.
  - apply Hload. reflexivity.
  - apply (Hbad Py.JSONDecodeError). reflexivity.
Defined.

(** Unlinking one side of a pair clears both sides; doing it again finds
    nothing. *)
Lemma unlink_postcondition_witness :
  result quiet (PairBot.unlink 100) (exec quiet (PairBot.set_pair 100 200) fresh)
  = Ret (Some 200)
  ∧ result quiet (PairBot.get_partner 200)
      (exec quiet (PairBot.unlink 100)
         (exec quiet (PairBot.set_pair 100 200) fresh)) = Ret None
  ∧ result quiet (PairBot.unlink 100)
      (exec quiet (PairBot.unlink 100)
         (exec quiet (PairBot.set_pair 100 200) fresh)) = Ret None.
Proof.
  destruct (unlink_postcondition quiet 100
              (exec quiet (PairBot.set_pair 100 200) fresh))
    as (r & Hget & Hret & _ & Hpartner & _ & Hagain).
  assert (Hr : r = Some 200).
  { assert (Hknown : result quiet (PairBot.get_partner 100)
                       (exec quiet (PairBot.set_pair 100 200) fresh)
                     = Ret (Some 200)) by reflexivity.
    rewrite Hknown in Hget. now injection Hget. }
  subst r. split; [exact Hret|]. split; [|exact Hagain].
  apply Hpartner. reflexivity.
Defined.

(** [/link 100] sent by 100 itself is refused, whatever the store holds. *)
Lemma set_pair_accepts_self_witness :
  result quiet (PairBot.get_partner 100)
    (exec quiet (PairBot.set_pair 100 100) fresh) = Ret (Some 100)
  ∧ trace quiet (PairBot.link_cmd (update_of (private_chat 100) (from_human 1))
                   {| Telegram.args := ["100"] |}) fresh
    = [reply_text 100 PairBot.MSG_NOT_YOURSELF].
Proof.
  destruct (set_pair_accepts_self quiet 100 fresh) as [[_ Hself] Hlink].
  split; [exact Hself|].
  apply (Hlink (from_human 1) "100" []). reflexivity.
Defined.

(** A partner recorded as 0 is treated like no partner at all. *)
Example relay_messages_partner_zero :
  result quiet (PairBot.get_partner 200)
    (exec quiet (PairBot.set_pair 200 0) fresh) = Ret (Some 0)
  ∧ trace quiet (PairBot.relay_messages (update_of (private_chat 200) (from_human 7)))
      (exec quiet (PairBot.set_pair 200 0) fresh) = [].
Proof. split; reflexivity. Qed.

(** A failed notification and a failed reply do not undo the link. *)
Example link_cmd_on_hostile_platform :
  run hostile (PairBot.link_cmd (update_of (private_chat 100) (from_human 1))
                 {| Telegram.args := ["200"] |}) fresh
  = (Raise Py.TelegramError,
     World {["100" := 200; "200" := 100]} Absent,
     [write_pairs (PairBot.dump {["100" := 200; "200" := 100]});
      log_exception "Failed to save pairs: %s";
      send_message 200
        ("🔗 Вас связали с аккаунтом <code>100</code>." +:+ LF
         +:+ "Теперь сообщения будут пересылаться автоматически.");
      reply_html 100
        ("Готово! 🔗 Связал с <code>200</code>." +:+ LF
         +:+ "Напиши любое сообщение — я отправлю его партнёру." +:+ LF
         +:+ "Чтобы отменить: /unlink")]).
Proof. vm_compute. reflexivity. Qed.

(** [/unlink] notifies the partner and confirms; with nothing to dissolve
    it only says so. *)
Example unlink_cmd_paired :
  run quiet (PairBot.unlink_cmd (update_of (private_chat 100) (from_human 1)))
    (World {["100" := 200; "200" := 100]} Absent)
  = (Ret tt, World ∅ (Holds (Py.JObj [])),
     [write_pairs (Py.JObj []);
      send_message 200 "❌ Связь разорвана партнёром.";
      reply_text 100 "Связь разорвана."]).
Proof. vm_compute. reflexivity. Qed.

Example unlink_cmd_unpaired :
  trace quiet (PairBot.unlink_cmd (update_of (private_chat 100) (from_human 1)))
    fresh
  = [write_pairs (Py.JObj []); reply_text 100 "Связи не было."].
Proof. vm_compute. reflexivity. Qed.

(** * More about the store *)

Section StoreMore.
Context (env : platform).
Implicit Types (w : world) (a b c x : Z).

Lemma save_pairs_run w :
  run env PairBot.save_pairs w
  = match write_raises env (PairBot.dump (_pairs w)) (PAIRS_FILE w) with
    | None =>
        (Ret tt, World (_pairs w) (Holds (PairBot.dump (_pairs w))),
         [write_pairs (PairBot.dump (_pairs w))])
    | Some (e, rest) =>
        (Ret tt, World (_pairs w) rest,
         [write_pairs (PairBot.dump (_pairs w));
          log_exception "Failed to save pairs: %s"])
    end.
Proof. unfold_M. now case_write env. Qed.

(** X1. [save_pairs] never raises and never changes the dictionary.  When
    the write goes through, the file holds the dump of the dictionary and
    the write is the only call; when it raises, the failure is logged
    after the attempt and the file is whatever the failed write left. *)
Theorem save_pairs_swallows_failure w :
  result env PairBot.save_pairs w = Ret tt
  ∧ _pairs (exec env PairBot.save_pairs w) = _pairs w
  ∧ match write_raises env (PairBot.dump (_pairs w)) (PAIRS_FILE w) with
    | None =>
        PAIRS_FILE (exec env PairBot.save_pairs w)
        = Holds (PairBot.dump (_pairs w))
        ∧ trace env PairBot.save_pairs w
          = [write_pairs (PairBot.dump (_pairs w))]
    | Some (e, rest) =>
        PAIRS_FILE (exec env PairBot.save_pairs w) = rest
        ∧ trace env PairBot.save_pairs w
          = [write_pairs (PairBot.dump (_pairs w));
             log_exception "Failed to save pairs: %s"]
    end.
Proof.
  unfold result, exec, trace. rewrite save_pairs_run.
  destruct (write_raises env _ _) as [[e rest]|]; cbn; auto.
Qed.

(** X2. [set_pair(a, b)] touches the entries of [a] and [b] only: the
    partner of every other identity is what it was. *)
Theorem set_pair_frame a b x w :
  x ≠ a → x ≠ b →
  result env (PairBot.get_partner x) (exec env (PairBot.set_pair a b) w)
  = result env (PairBot.get_partner x) w.
Proof.
  intros Hxa Hxb. rewrite !get_partner_result, set_pair_dict. f_equal.
  rewrite !lookup_insert_ne by (apply str_ne; congruence). done.
Qed.

(** X3. It does not matter which side links: [set_pair(b, a)] leaves the
    same dictionary as [set_pair(a, b)], and linking the same two again
    changes nothing. *)
Theorem set_pair_either_side a b w :
  _pairs (exec env (PairBot.set_pair b a) w)
  = _pairs (exec env (PairBot.set_pair a b) w)
  ∧ _pairs (exec env (PairBot.set_pair a b)
              (exec env (PairBot.set_pair a b) w))
    = _pairs (exec env (PairBot.set_pair a b) w)
  ∧ _pairs (exec env (PairBot.set_pair b a)
              (exec env (PairBot.set_pair a b) w))
    = _pairs (exec env (PairBot.set_pair a b) w).
Proof.
  rewrite !set_pair_dict.
  repeat split; apply map_eq; intros k; rewrite !lookup_insert;
    repeat case_decide; try congruence.
  - subst k. assert (a = b) by now apply str_inj. congruence.
  - subst k. assert (a = b) by (symmetry; now apply str_inj). congruence.
Qed.

(** X4. [unlink(a)] touches the entry of [a] and the entry of the partner
    recorded for [a], and nothing else. *)
Theorem unlink_frame a x w :
  x ≠ a →
  result env (PairBot.get_partner a) w ≠ Ret (Some x) →
  result env (PairBot.get_partner x) (exec env (PairBot.unlink a) w)
  = result env (PairBot.get_partner x) w.
Proof.
  rewrite !get_partner_result, unlink_dict. intros Hxa Hpartner. f_equal.
  destruct (_pairs w !! Py.str a) as [b|] eqn:Ha.
  - assert (x ≠ b) by congruence.
    rewrite !lookup_delete_ne by (apply str_ne; congruence). done.
  - rewrite lookup_delete_ne by (apply str_ne; congruence). done.
Qed.

(** X5. Linking two identities that had no entry and unlinking one of
    them again gives back the dictionary one started with; the unlink
    returns the other identity. *)
Theorem unlink_undoes_set_pair a b w :
  a ≠ b →
  result env (PairBot.get_partner a) w = Ret None →
  result env (PairBot.get_partner b) w = Ret None →
  result env (PairBot.unlink a) (exec env (PairBot.set_pair a b) w)
  = Ret (Some b)
  ∧ _pairs (exec env (PairBot.unlink a) (exec env (PairBot.set_pair a b) w))
    = _pairs w.
Proof.
  rewrite !get_partner_result. intros Hab [= Ha] [= Hb].
  assert (Hne : Py.str a ≠ Py.str b) by now apply str_ne.
  assert (Hlook : _pairs (exec env (PairBot.set_pair a b) w) !! Py.str a
                  = Some b).
  { rewrite set_pair_dict, lookup_insert_ne by done. apply lookup_insert_eq. }
  rewrite unlink_returns, unlink_dict, Hlook, set_pair_dict.
  split; [done|].
  apply map_eq. intros k. rewrite !lookup_delete, !lookup_insert.
  repeat case_decide; congruence.
Qed.

(** X6. For a pair recorded in both directions it does not matter who
    unlinks: either call removes both entries and returns the other side. *)
Theorem unlink_either_side a b w :
  result env (PairBot.get_partner a) w = Ret (Some b) →
  result env (PairBot.get_partner b) w = Ret (Some a) →
  result env (PairBot.unlink a) w = Ret (Some b)
  ∧ result env (PairBot.unlink b) w = Ret (Some a)
  ∧ _pairs (exec env (PairBot.unlink a) w)
    = _pairs (exec env (PairBot.unlink b) w).
Proof.
  rewrite !get_partner_result. intros [= Ha] [= Hb].
  rewrite !unlink_returns, !unlink_dict, Ha, Hb.
  repeat split. apply delete_delete.
Qed.

(** X7. As long as [set_pair] is only issued for identities that have no
    other partner, every state reached from the empty store by [set_pair]
    and [unlink] is symmetric: [get_partner(A) == B] gives
    [get_partner(B) == A]. *)
Theorem tidy_histories_are_symmetric w :
  tidy env w → symmetric env w.
Proof.
  induction 1 as [f | w x _ IH | w a b _ IH [Ha Hb]].
  - apply symmetric_empty.
  - now apply symmetric_unlink.
  - apply symmetric_set_pair; [| |exact IH].
    + intros c Hc. apply Ha. rewrite get_partner_result. now f_equal.
    + intros c Hc. apply Hb. rewrite get_partner_result. now f_equal.
Qed.

End StoreMore.

(** * Persistence across restarts *)

Ltac unfold_load :=
  unfold result, exec, trace, run, PairBot.load_pairs;
  unfold try_except, log, lift, raise, get_world, set_pairs_dict, ask;
  unfold mbind, mret, M_bind, M_ret, bind, ret; cbn.

Lemma comprehension_fails (f : string → option Z)
    (members : list (string * Py.json)) :
  ∀ (acc : gmap string Z) k v e,
    (k, v) ∈ members → Py.int f v = inl e →
    ∃ e', PairBot.comprehension f acc members = inl e'.
Proof.
  induction members as [|[k0 v0] members IH]; intros acc k v e Hin Hint.
  - by apply elem_of_nil in Hin.
  - cbn. destruct (Py.int f v0) as [e0|n0] eqn:H0; [by eexists|].
    apply elem_of_cons in Hin as [[= -> ->] | Hin]; [congruence|].
    by eapply IH.
Qed.

Section Restart.
Context (env : platform).
Implicit Types (w : world) (o : op).

Lemma load_pairs_of_dump (d0 d : gmap string Z) :
  run env PairBot.load_pairs (World d0 (Holds (PairBot.dump d)))
  = (Ret tt, World d (Holds (PairBot.dump d)), []).
Proof.
  destruct (comprehension_dump (int_of_str env) d) as [_ Hload].
  unfold_load. now rewrite Hload.
Qed.

Lemma perform_file o w :
  PAIRS_FILE (exec env (perform o) w)
  = match write_raises env (PairBot.dump (_pairs (exec env (perform o) w)))
            (PAIRS_FILE w) with
    | None => Holds (PairBot.dump (_pairs (exec env (perform o) w)))
    | Some (_, rest) => rest
    end.
Proof.
  destruct o as [a b | x].
  - cbn [perform]. rewrite set_pair_dict. unfold_M. now case_write env.
  - assert (Hd : _pairs (exec env (perform (Unlink x)) w)
                 = _pairs (exec env (PairBot.unlink x) w)).
    { unfold perform. unfold_M.
      destruct (_pairs w !! Py.str x) as [y|]; cbn; now case_write env. }
    rewrite Hd, unlink_dict. unfold perform. unfold_M.
    destruct (_pairs w !! Py.str x) as [y|]; cbn; now case_write env.
Qed.

(** X8. When the write that follows a [set_pair] or an [unlink] goes
    through, a process that starts again and loads the file gets exactly
    the pairs the old process had after the operation, whatever dictionary
    it starts with, and the load does not log anything. *)
Theorem restart_finds_saved_pairs o w (d0 : gmap string Z) :
  write_raises env (PairBot.dump (_pairs (exec env (perform o) w)))
    (PAIRS_FILE w) = None →
  _pairs (exec env PairBot.load_pairs (restarted d0 (exec env (perform o) w)))
  = _pairs (exec env (perform o) w)
  ∧ trace env PairBot.load_pairs (restarted d0 (exec env (perform o) w)) = [].
Proof.
  intros Hok. unfold restarted. rewrite perform_file, Hok.
  unfold exec at 1, trace. now rewrite load_pairs_of_dump.
Qed.

(** X9. When that write raises without touching the file, the operation
    still took effect in memory, but a process that starts again loads
    what an unchanged process would have loaded: the change is lost. *)
Theorem restart_loses_unsaved_change o w (d0 : gmap string Z) e :
  write_raises env (PairBot.dump (_pairs (exec env (perform o) w)))
    (PAIRS_FILE w) = Some (e, PAIRS_FILE w) →
  result env (perform o) w = Ret tt
  ∧ exec env PairBot.load_pairs (restarted d0 (exec env (perform o) w))
    = exec env PairBot.load_pairs (restarted d0 w).
Proof.
  intros Hfail. split.
  - clear Hfail. destruct o as [a b | x]; unfold perform.
    + apply set_pair_returns.
    + unfold_M. destruct (_pairs w !! Py.str x) as [y|]; cbn;
        now case_write env.
  - unfold restarted. now rewrite perform_file, Hfail.
Qed.

(** X10. Loading is all or nothing: if the interpreter's [int()] raises
    on the value of one member of the file, no pair is loaded at all, the
    failure is logged, and [load_pairs] still returns normally. *)
Theorem load_pairs_all_or_nothing w members k v e :
  PAIRS_FILE w = Holds (Py.JObj members) →
  (k, v) ∈ members → Py.int (int_of_str env) v = inl e →
  run env PairBot.load_pairs w
  = (Ret tt, World ∅ (PAIRS_FILE w),
     [log_exception "Failed to load pairs: %s"]).
Proof.
  intros Hfile Hin Hint.
  destruct (comprehension_fails (int_of_str env) members ∅ k v e Hin Hint)
    as [e' Hfail].
  unfold_load. rewrite Hfile. cbn. rewrite Hfail. cbn. now rewrite Hfile.
Qed.

End Restart.

(** * The commands, end to end *)

Ltac case_env :=
  repeat match goal with
  | H : bot_raises ?e ?c = _ |- context [bot_raises ?e ?c] =>
      rewrite H; cbn
  | H : write_raises ?e ?d ?f = _ |- context [write_raises ?e ?d ?f] =>
      rewrite H; cbn
  | |- context [write_raises ?e ?d ?f] =>
      destruct (write_raises e d f) as [[? ?]|] eqn:?; cbn
  | |- context [bot_raises ?e ?c] => destruct (bot_raises e c) eqn:?; cbn
  end.

Ltac unfold_cmd :=
  unfold result, exec, trace, run;
  unfold PairBot.link_cmd, PairBot.unlink_cmd, PairBot.start_cmd,
    PairBot.myid_cmd, PairBot.relay_messages, ForwardBot.forward_all;
  unfold PairBot.set_pair, PairBot.unlink, PairBot.get_partner,
    PairBot.setitem, PairBot.pop, PairBot.save_pairs, PairBot.write_file;
  unfold reply, try_except, api, log, lift, raise, get_world,
    set_pairs_dict, ask;
  unfold mbind, mret, M_bind, M_ret, bind, ret;
  cbn.

Section Commands.
Context (env : platform).
Implicit Types (w : world) (u : Telegram.Update) (ctx : Telegram.Context).

Lemma link_cmd_run u ctx arg rest other w :
  Telegram.args ctx = arg :: rest →
  int_of_str env arg = Some other →
  other ≠ sender u →
  run env (PairBot.link_cmd u ctx) w
  = (reply_outcome env u (reply_html (sender u) (LINK_DONE other)),
     exec env (PairBot.set_pair (sender u) other) w,
     trace env (PairBot.set_pair (sender u) other) w
     ++ send_message other (LINK_NOTICE (sender u))
        :: replies u (reply_html (sender u) (LINK_DONE other))).
Proof.
  intros Hargs Hint Hne. unfold reply_outcome, replies, outcome, sender in *.
  unfold exec, trace, run, PairBot.link_cmd. rewrite Hargs.
  unfold mbind at 1, M_bind at 1, bind at 1, ask. rewrite Hint.
  rewrite bool_decide_false by done.
  fold (LINK_NOTICE (Telegram.id (Telegram.effective_chat u))).
  fold (LINK_DONE other).
  generalize (LINK_NOTICE (Telegram.id (Telegram.effective_chat u))).
  generalize (LINK_DONE other). intros done_text notice_text.
  unfold_cmd. destruct (Telegram.message u); cbn; case_env; reflexivity.
Qed.

(** X11. A [/link] whose argument reads as another identity records the
    pair in both directions, then tries to tell the other side, then
    confirms to the sender through [update.message].  A write of the file
    that fails and a notice that cannot be delivered stop neither the link
    nor what follows.  On a new message the confirmation is the last call
    and the handler returns or raises as that call does; on an edited
    message there is no confirmation and the handler raises
    [AttributeError], with the pair recorded and the notice sent. *)
Theorem link_cmd_links_both_ways u ctx arg rest other w :
  Telegram.args ctx = arg :: rest →
  int_of_str env arg = Some other →
  other ≠ sender u →
  result env (PairBot.get_partner (sender u))
    (exec env (PairBot.link_cmd u ctx) w) = Ret (Some other)
  ∧ result env (PairBot.get_partner other)
      (exec env (PairBot.link_cmd u ctx) w) = Ret (Some (sender u))
  ∧ trace env (PairBot.link_cmd u ctx) w
    = trace env (PairBot.set_pair (sender u) other) w
      ++ send_message other (LINK_NOTICE (sender u))
         :: match Telegram.message u with
            | Some _ => [reply_html (sender u) (LINK_DONE other)]
            | None => []
            end
  ∧ result env (PairBot.link_cmd u ctx) w
    = match Telegram.message u with
      | Some _ => outcome env (reply_html (sender u) (LINK_DONE other))
      | None => Raise Py.AttributeError
      end.
Proof.
  intros Hargs Hint Hne.
  pose proof (link_cmd_run u ctx arg rest other w Hargs Hint Hne) as Hrun.
  assert (Hexec : exec env (PairBot.link_cmd u ctx) w
                  = exec env (PairBot.set_pair (sender u) other) w)
    by (unfold exec at 1; now rewrite Hrun).
  rewrite Hexec, !get_partner_result, set_pair_dict.
  split; [|split; [|split]].
  - f_equal. rewrite lookup_insert_ne by (apply str_ne; congruence).
    apply lookup_insert_eq.
  - f_equal. apply lookup_insert_eq.
  - unfold trace at 1. now rewrite Hrun.
  - unfold result. now rewrite Hrun.
Qed.

Lemma relay_messages_run u w :
  run env (PairBot.relay_messages u) w
  = if is_private u && negb (written_by_bot u) then
      match _pairs w !! Py.str (sender u) with
      | Some p =>
          if Py.truthy p then
            let c := copy_message p (sender u)
                       (Telegram.message_id (Telegram.effective_message u)) in
            match bot_raises env c with
            | Some _ => (Ret tt, w, [c; log_exception "Forward error: %s"])
            | None => (Ret tt, w, [c])
            end
          else (Ret tt, w, [])
      | None => (Ret tt, w, [])
      end
    else (Ret tt, w, []).
Proof.
  unfold is_private, written_by_bot, sender, run, PairBot.relay_messages.
  destruct (String.eqb _ _); cbn; [|done].
  destruct (match Telegram.from_user _ with Some _ => _ | None => _ end);
    cbn; [done|].
  unfold_cmd. destruct (_pairs w !! _) as [p|]; cbn; [|done].
  destruct (Py.truthy p); cbn; [|done]. now case_env.
Qed.

(** X12. [relay_messages] never raises and never changes the store or the
    file.  It makes no call at all, or one [copy_message] to the partner
    recorded for the sender, followed by one log entry exactly when the
    platform refuses the copy. *)
Theorem relay_messages_swallows_errors u w :
  result env (PairBot.relay_messages u) w = Ret tt
  ∧ exec env (PairBot.relay_messages u) w = w
  ∧ (trace env (PairBot.relay_messages u) w = []
     ∨ ∃ p,
         result env (PairBot.get_partner (sender u)) w = Ret (Some p)
         ∧ trace env (PairBot.relay_messages u) w
           = copy_message p (sender u)
               (Telegram.message_id (Telegram.effective_message u))
             :: match bot_raises env
                        (copy_message p (sender u)
                           (Telegram.message_id (Telegram.effective_message u)))
                with
                | Some _ => [log_exception "Forward error: %s"]
                | None => []
                end).
Proof.
  unfold result at 1, exec, trace. rewrite relay_messages_run.
  rewrite get_partner_result.
  destruct (is_private u && negb (written_by_bot u)); cbn; [|auto].
  destruct (_pairs w !! Py.str (sender u)) as [p|]; cbn; [|auto].
  destruct (Py.truthy p); cbn; [|auto].
  destruct (bot_raises env _) eqn:Hbot; cbn; repeat split; right; exists p;
    now rewrite Hbot.
Qed.

(** X13. After a [/link] between two identities other than 0, what either
    of them writes in a private chat is copied to the other one. *)
Theorem link_then_relay_both_ways u ctx arg rest other u' w :
  Telegram.args ctx = arg :: rest →
  int_of_str env arg = Some other →
  other ≠ sender u → other ≠ 0 → sender u ≠ 0 →
  is_private u' = true → written_by_bot u' = false →
  (sender u' = sender u →
     copies (trace env (PairBot.relay_messages u')
               (exec env (PairBot.link_cmd u ctx) w))
     = [(other, sender u,
         Telegram.message_id (Telegram.effective_message u'))])
  ∧ (sender u' = other →
     copies (trace env (PairBot.relay_messages u')
               (exec env (PairBot.link_cmd u ctx) w))
     = [(sender u, other,
         Telegram.message_id (Telegram.effective_message u'))]).
Proof.
  intros Hargs Hint Hne Ho Hs Hpriv Hbot.
  pose proof (link_cmd_run u ctx arg rest other w Hargs Hint Hne) as Hrun.
  assert (Hexec : exec env (PairBot.link_cmd u ctx) w
                  = exec env (PairBot.set_pair (sender u) other) w)
    by (unfold exec at 1; now rewrite Hrun).
  rewrite Hexec. unfold trace. rewrite relay_messages_run, Hpriv, Hbot.
  cbn [andb negb]. rewrite set_pair_dict.
  split; intros ->.
  - rewrite lookup_insert_ne by (apply str_ne; congruence).
    rewrite lookup_insert_eq. unfold Py.truthy.
    rewrite (proj2 (Z.eqb_neq other 0) Ho). cbn.
    now destruct (bot_raises env _).
  - rewrite lookup_insert_eq. unfold Py.truthy.
    rewrite (proj2 (Z.eqb_neq (sender u) 0) Hs). cbn.
    now destruct (bot_raises env _).
Qed.

Lemma unlink_cmd_run u w :
  run env (PairBot.unlink_cmd u) w
  = if Py.truthy_opt (_pairs w !! Py.str (sender u)) then
      (reply_outcome env u (reply_text (sender u) UNLINK_DONE),
       exec env (PairBot.unlink (sender u)) w,
       trace env (PairBot.unlink (sender u)) w
       ++ match _pairs w !! Py.str (sender u) with
          | Some o => [send_message o UNLINK_NOTICE]
          | None => []
          end
       ++ replies u (reply_text (sender u) UNLINK_DONE))
    else
      (reply_outcome env u (reply_text (sender u) UNLINK_NOTHING),
       exec env (PairBot.unlink (sender u)) w,
       trace env (PairBot.unlink (sender u)) w
       ++ replies u (reply_text (sender u) UNLINK_NOTHING)).
Proof.
  unfold reply_outcome, replies, outcome, sender.
  unfold UNLINK_DONE, UNLINK_NOTHING, UNLINK_NOTICE.
  unfold Py.truthy_opt, Py.truthy.
  destruct (Telegram.message u) as [m|] eqn:Hm;
    (destruct (_pairs w !! _) as [o|] eqn:Hp; [destruct (o =? 0) eqn:Ht|]);
    unfold_cmd; rewrite ?Hp, ?Hm; cbn; case_env;
    unfold Py.truthy_opt, Py.truthy; rewrite ?Ht, ?Hm; cbn; case_env;
    rewrite ?Hm; cbn; case_env; rewrite ?app_nil_r; reflexivity.
Qed.

(** X14. [/unlink] by somebody whose recorded partner [o] is not 0
    removes the entries of both, tries to tell [o], and then confirms
    through [update.message]: on a new message the confirmation is the
    last call, on an edited one there is none and the handler raises
    [AttributeError].  Either way, after that nothing either of the two
    writes is copied anywhere. *)
Theorem unlink_cmd_dissolves u o u' w :
  result env (PairBot.get_partner (sender u)) w = Ret (Some o) →
  o ≠ 0 →
  result env (PairBot.get_partner (sender u))
    (exec env (PairBot.unlink_cmd u) w) = Ret None
  ∧ result env (PairBot.get_partner o)
      (exec env (PairBot.unlink_cmd u) w) = Ret None
  ∧ trace env (PairBot.unlink_cmd u) w
    = trace env (PairBot.unlink (sender u)) w
      ++ send_message o UNLINK_NOTICE
         :: match Telegram.message u with
            | Some _ => [reply_text (sender u) UNLINK_DONE]
            | None => []
            end
  ∧ result env (PairBot.unlink_cmd u) w
    = match Telegram.message u with
      | Some _ => outcome env (reply_text (sender u) UNLINK_DONE)
      | None => Raise Py.AttributeError
      end
  ∧ (sender u' = sender u ∨ sender u' = o →
     trace env (PairBot.relay_messages u')
       (exec env (PairBot.unlink_cmd u) w) = []).
Proof.
  rewrite get_partner_result. intros [= Hp] Ho.
  assert (Hrun := unlink_cmd_run u w). rewrite Hp in Hrun.
  cbn [Py.truthy_opt] in Hrun. unfold Py.truthy in Hrun.
  rewrite (proj2 (Z.eqb_neq o 0) Ho) in Hrun. cbn [negb] in Hrun.
  assert (Hexec : exec env (PairBot.unlink_cmd u) w
                  = exec env (PairBot.unlink (sender u)) w)
    by (unfold exec at 1; now rewrite Hrun).
  assert (Ha : _pairs (exec env (PairBot.unlink (sender u)) w)
               !! Py.str (sender u) = None).
  { rewrite unlink_dict, Hp.
    destruct (decide (Py.str o = Py.str (sender u))) as [-> | Hne];
      [apply lookup_delete_eq|].
    rewrite lookup_delete_ne by done. apply lookup_delete_eq. }
  assert (Hb : _pairs (exec env (PairBot.unlink (sender u)) w) !! Py.str o
               = None).
  { rewrite unlink_dict, Hp. apply lookup_delete_eq. }
  rewrite Hexec, !get_partner_result, Ha, Hb.
  split; [done|]. split; [done|]. split; [|split].
  - unfold trace at 1. now rewrite Hrun.
  - unfold result. now rewrite Hrun.
  - intros Hwho. unfold trace. rewrite relay_messages_run.
    destruct (is_private u' && negb (written_by_bot u')); [|done].
    destruct Hwho as [-> | ->]; now rewrite ?Ha, ?Hb.
Qed.

(** X15. [/unlink] by somebody without a partner leaves the dictionary as
    it is and still rewrites the file.  On a new message it then says
    that there was nothing to dissolve, and that reply is its only
    message; on an edited message it sends nothing and raises
    [AttributeError]. *)
Theorem unlink_cmd_without_partner u w :
  result env (PairBot.get_partner (sender u)) w = Ret None →
  _pairs (exec env (PairBot.unlink_cmd u) w) = _pairs w
  ∧ trace env (PairBot.unlink_cmd u) w
    = trace env PairBot.save_pairs w
      ++ match Telegram.message u with
         | Some _ => [reply_text (sender u) UNLINK_NOTHING]
         | None => []
         end
  ∧ result env (PairBot.unlink_cmd u) w
    = match Telegram.message u with
      | Some _ => outcome env (reply_text (sender u) UNLINK_NOTHING)
      | None => Raise Py.AttributeError
      end.
Proof.
  rewrite get_partner_result. intros [= Hp].
  assert (Hrun := unlink_cmd_run u w). rewrite Hp in Hrun.
  cbn [Py.truthy_opt] in Hrun.
  assert (Hsame : delete (Py.str (sender u)) (_pairs w) = _pairs w)
    by now apply delete_id.
  split; [|split].
  - unfold exec at 1. rewrite Hrun. cbn. rewrite unlink_dict, Hp.
    exact Hsame.
  - unfold trace at 1. rewrite Hrun. cbn. f_equal.
    unfold trace, run. unfold_cmd. rewrite Hp. cbn. rewrite Hsame.
    destruct w as [d f]. cbn. now case_env.
  - unfold result. now rewrite Hrun.
Qed.

Lemma append_assoc (a b c : string) : (a +:+ b) +:+ c = a +:+ (b +:+ c).
Proof.
  induction a as [|x a IH]; [done|].
  change (String x ((a +:+ b) +:+ c) = String x (a +:+ (b +:+ c))).
  now rewrite IH.
Qed.

Lemma start_cmd_run u w :
  run env (PairBot.start_cmd u) w
  = let text :=
      GREETING (sender u)
      +:+ match _pairs w !! Py.str (sender u) with
          | Some p => if Py.truthy p then STATUS_LINKED p else STATUS_NOT_LINKED
          | None => STATUS_NOT_LINKED
          end in
    (reply_outcome env u (reply_html (sender u) text), w,
     replies u (reply_html (sender u) text)).
Proof.
  unfold reply_outcome, replies, outcome, sender.
  unfold GREETING, STATUS_LINKED, STATUS_NOT_LINKED.
  unfold run, PairBot.start_cmd.
  unfold PairBot.get_partner, reply, api, raise, get_world.
  unfold mbind, mret, M_bind, M_ret, bind, ret. cbn zeta beta iota.
  destruct (_pairs w !! _) as [p|]; cbn [Py.truthy_opt from_option];
    [destruct (Py.truthy p)|];
    rewrite ?append_assoc; cbn zeta;
    (destruct (Telegram.message u); [|done]);
    now destruct (bot_raises env _).
Qed.

(** X16. [/start] changes nothing.  Sent as a new message it gets one
    reply, and what that reply says agrees with what the relay does for
    the same sender: it ends with the "linked with [p]" status exactly
    when a private message of the sender would be copied to [p], and with
    the "not linked" status exactly when such a message would be copied
    nowhere; the two endings are never the same text.  Sent as an edit of
    a message it gets no reply: the handler raises [AttributeError]. *)
Theorem start_cmd_reports_relay_status u u' w :
  is_private u' = true → written_by_bot u' = false →
  sender u' = sender u →
  exec env (PairBot.start_cmd u) w = w
  ∧ (Telegram.message u = None →
     trace env (PairBot.start_cmd u) w = []
     ∧ result env (PairBot.start_cmd u) w = Raise Py.AttributeError)
  ∧ (Telegram.message u ≠ None →
     (∃ p,
        trace env (PairBot.start_cmd u) w
        = [reply_html (sender u) (GREETING (sender u) +:+ STATUS_LINKED p)]
        ∧ copies (trace env (PairBot.relay_messages u') w)
          = [(p, sender u,
              Telegram.message_id (Telegram.effective_message u'))])
     ∨ (trace env (PairBot.start_cmd u) w
        = [reply_html (sender u) (GREETING (sender u) +:+ STATUS_NOT_LINKED)]
        ∧ copies (trace env (PairBot.relay_messages u') w) = []))
  ∧ ∀ p, GREETING (sender u) +:+ STATUS_LINKED p
         ≠ GREETING (sender u) +:+ STATUS_NOT_LINKED.
Proof.
  intros Hpriv Hbot Hsame.
  unfold exec, trace, result. rewrite start_cmd_run, relay_messages_run.
  rewrite Hpriv, Hbot, Hsame. cbn [andb negb].
  unfold reply_outcome, replies.
  split; [done|]. split; [|split].
  - now intros ->.
  - intros Hmsg. destruct (Telegram.message u) as [m|]; [|done].
    destruct (_pairs w !! Py.str (sender u)) as [p|]; [|now right].
    destruct (Py.truthy p); [|now right].
    left. exists p. split; [done|]. cbn. now destruct (bot_raises env _).
  - intros p Heq. apply (inj (String.app _)) in Heq.
    cbv [String.append STATUS_LINKED STATUS_NOT_LINKED LF] in Heq.
    discriminate Heq.
Qed.

Lemma myid_cmd_run u w :
  run env (PairBot.myid_cmd u) w
  = (reply_outcome env u (reply_html (sender u) (MYID_TEXT (sender u))), w,
     replies u (reply_html (sender u) (MYID_TEXT (sender u)))).
Proof.
  unfold PairBot.myid_cmd. rewrite reply_run.
  unfold reply_outcome, replies. now destruct (Telegram.message u).
Qed.

(** X17. The id that [/myid] shows to one chat is the argument that makes
    [/link], sent from any other chat, pair the two.  [/myid] changes
    nothing; sent as a new message it is answered with the text around
    [str(cid)], sent as an edit it is not answered.  Where [int] reads
    that [str(cid)] back as [cid], [/link] with it records both
    directions. *)
Theorem myid_then_link u u' rest w :
  sender u' ≠ sender u →
  int_of_str env (Py.str (sender u')) = Some (sender u') →
  exec env (PairBot.myid_cmd u') w = w
  ∧ trace env (PairBot.myid_cmd u') w
    = match Telegram.message u' with
      | Some _ =>
          [reply_html (sender u')
             ("Твой ID: <code>" +:+ Py.str (sender u') +:+ "</code>")]
      | None => []
      end
  ∧ result env (PairBot.get_partner (sender u))
      (exec env (PairBot.link_cmd u
                   {| Telegram.args := Py.str (sender u') :: rest |}) w)
    = Ret (Some (sender u'))
  ∧ result env (PairBot.get_partner (sender u'))
      (exec env (PairBot.link_cmd u
                   {| Telegram.args := Py.str (sender u') :: rest |}) w)
    = Ret (Some (sender u)).
Proof.
  intros Hne Hint.
  unfold exec at 1, trace. rewrite myid_cmd_run. cbn [fst snd].
  split; [done|]. split; [done|].
  pose proof (link_cmd_run u {| Telegram.args := Py.str (sender u') :: rest |}
                (Py.str (sender u')) rest (sender u') w eq_refl
                Hint Hne) as Hrun.
  assert (Hexec : exec env (PairBot.link_cmd u
                    {| Telegram.args := Py.str (sender u') :: rest |}) w
                  = exec env (PairBot.set_pair (sender u) (sender u')) w)
    by (unfold exec at 1; now rewrite Hrun).
  rewrite Hexec, !get_partner_result, set_pair_dict. split; f_equal.
  - rewrite lookup_insert_ne by (apply str_ne; congruence).
    apply lookup_insert_eq.
  - apply lookup_insert_eq.
Qed.

(** *** Nobody gets paired with themselves *)

Lemma no_self_pairing_dict w :
  no_self_pairing env w ↔ ∀ a, _pairs w !! Py.str a ≠ Some a.
Proof.
  unfold no_self_pairing. setoid_rewrite get_partner_result.
  split; intros H a Ha; apply (H a); congruence.
Qed.

Lemma no_self_pairing_set_pair a b w :
  a ≠ b → no_self_pairing env w →
  no_self_pairing env (exec env (PairBot.set_pair a b) w).
Proof.
  rewrite !no_self_pairing_dict, set_pair_dict. intros Hab Hw x.
  rewrite !lookup_insert. repeat case_decide.
  - assert (x = b) by (symmetry; now apply str_inj). congruence.
  - assert (x = a) by (symmetry; now apply str_inj). congruence.
  - apply Hw.
Qed.

Lemma no_self_pairing_unlink a w :
  no_self_pairing env w →
  no_self_pairing env (exec env (PairBot.unlink a) w).
Proof.
  rewrite !no_self_pairing_dict, unlink_dict. intros Hw x Hx.
  apply (Hw x).
  destruct (_pairs w !! Py.str a) as [b|].
  - apply lookup_delete_Some in Hx as [_ Hx].
    now apply lookup_delete_Some in Hx as [_ Hx].
  - now apply lookup_delete_Some in Hx as [_ Hx].
Qed.

Lemma reply_exec kind u text w : exec env (reply kind u text) w = w.
Proof.
  unfold exec. rewrite reply_run. now destruct (Telegram.message u).
Qed.

Lemma link_cmd_exec u ctx w :
  exec env (PairBot.link_cmd u ctx) w = w
  ∨ ∃ other, other ≠ sender u
      ∧ exec env (PairBot.link_cmd u ctx) w
        = exec env (PairBot.set_pair (sender u) other) w.
Proof.
  destruct (Telegram.args ctx) as [|arg rest] eqn:Hargs.
  { left. unfold exec. rewrite link_cmd_no_argument by done.
    apply reply_exec. }
  destruct (int_of_str env arg) as [other|] eqn:Hint.
  2: { left. unfold exec.
       rewrite (link_cmd_not_a_number env u ctx arg rest) by done.
       apply reply_exec. }
  destruct (decide (other = sender u)) as [-> | Hne].
  { left. unfold exec.
    rewrite (link_cmd_own_id_argument env u ctx arg rest) by done.
    apply reply_exec. }
  right. exists other. split; [done|].
  unfold exec at 1. now rewrite (link_cmd_run u ctx arg rest other w).
Qed.

Lemma invoke_keeps_no_self_pairing i w :
  no_self_pairing env w → no_self_pairing env (exec env (invoke i) w).
Proof.
  intros Hw. destruct i as [u | u | u ctx | u | u]; cbn [invoke].
  - unfold exec. now rewrite start_cmd_run.
  - unfold exec. now rewrite myid_cmd_run.
  - destruct (link_cmd_exec u ctx w) as [-> | (other & Hne & ->)]; [done|].
    apply no_self_pairing_set_pair; [congruence | done].
  - assert (Hexec : exec env (PairBot.unlink_cmd u) w
                    = exec env (PairBot.unlink (sender u)) w).
    { unfold exec at 1. rewrite unlink_cmd_run. now destruct (Py.truthy_opt _). }
    rewrite Hexec. now apply no_self_pairing_unlink.
  - unfold exec. rewrite relay_messages_run.
    destruct (_ && _); [|done].
    destruct (_pairs w !! _) as [p|]; [|done].
    destruct (Py.truthy p); [|done]. cbn zeta.
    now destruct (bot_raises env _).
Qed.

(** X18. No sequence of calls of the five handlers, with whatever updates
    and arguments and however the platform answers, records anybody as
    their own partner, provided nobody was to begin with (as in the empty
    store). *)
Theorem handlers_never_pair_with_self (l : list invocation) w :
  no_self_pairing env w → no_self_pairing env (invoke_all env l w).
Proof.
  revert w. induction l as [|i l IH]; intros w Hw; [done|].
  cbn [invoke_all foldl]. apply IH. now apply invoke_keeps_no_self_pairing.
Qed.

End Commands.

(** * The forward-all bot *)

Section Forwarding.
Context (env : platform).
Implicit Types (cfg : ForwardBot.config) (u : Telegram.Update) (w : world).

Lemma forward_all_run cfg u w :
  run env (ForwardBot.forward_all cfg u) w
  = if Py.truthy_opt (ForwardBot.SOURCE_CHAT_ID cfg)
       && negb (bool_decide (Some (sender u) = ForwardBot.SOURCE_CHAT_ID cfg))
       || (sender u =? ForwardBot.TARGET_CHAT_ID cfg)
    then (Ret tt, w, [])
    else
      (outcome env (copy_message (ForwardBot.TARGET_CHAT_ID cfg) (sender u)
                      (Telegram.message_id (Telegram.effective_message u))),
       w,
       [copy_message (ForwardBot.TARGET_CHAT_ID cfg) (sender u)
          (Telegram.message_id (Telegram.effective_message u))]).
Proof.
  unfold run, sender, outcome, ForwardBot.forward_all.
  destruct (_ && _); cbn; [done|].
  destruct (_ =? _); cbn; [done|].
  unfold api. now destruct (bot_raises env _).
Qed.

(** X19. [forward_all] does not catch a failed delivery: either it makes
    no call and returns, or it makes the one [copy_message] to the target
    and returns or raises exactly as that call does.  It never logs and
    never touches the store. *)
Theorem forward_all_lets_errors_through cfg u w :
  exec env (ForwardBot.forward_all cfg u) w = w
  ∧ ((trace env (ForwardBot.forward_all cfg u) w = []
      ∧ result env (ForwardBot.forward_all cfg u) w = Ret tt)
     ∨ (trace env (ForwardBot.forward_all cfg u) w
        = [copy_message (ForwardBot.TARGET_CHAT_ID cfg) (sender u)
             (Telegram.message_id (Telegram.effective_message u))]
        ∧ result env (ForwardBot.forward_all cfg u) w
          = match bot_raises env
                    (copy_message (ForwardBot.TARGET_CHAT_ID cfg) (sender u)
                       (Telegram.message_id (Telegram.effective_message u)))
            with
            | Some e => Raise e
            | None => Ret tt
            end)).
Proof.
  unfold exec, trace, result. rewrite forward_all_run.
  destruct (_ || _); cbn; auto.
Qed.

(** X20. What [/start] of the forward-all bot announces is what
    [forward_all] enforces.  It changes nothing; sent as an edit of a
    message it gets no reply and the handler raises [AttributeError];
    sent as a new message it gets one reply.  Either that reply ends in
    "any source", and then every message from a chat other than the
    target is copied to the target; or it ends in "restricted to [s]"
    with [s] not 0, and then messages of [s] are copied (unless [s] is
    the target) and messages of every other chat are not. *)
Theorem forward_start_cmd_matches_routing cfg u w :
  exec env (ForwardBotSetup.start_cmd cfg u) w = w
  ∧ (Telegram.message u = None →
     trace env (ForwardBotSetup.start_cmd cfg u) w = []
     ∧ result env (ForwardBotSetup.start_cmd cfg u) w
       = Raise Py.AttributeError)
  ∧ (((Telegram.message u ≠ None →
       trace env (ForwardBotSetup.start_cmd cfg u) w
       = [reply_text (sender u)
            (ForwardBotSetup.START_HEAD cfg +:+ "Источник: любой")])
      ∧ ∀ u', sender u' ≠ ForwardBot.TARGET_CHAT_ID cfg →
          trace env (ForwardBot.forward_all cfg u') w
          = [copy_message (ForwardBot.TARGET_CHAT_ID cfg) (sender u')
               (Telegram.message_id (Telegram.effective_message u'))])
     ∨ ∃ s, s ≠ 0
         ∧ (Telegram.message u ≠ None →
            trace env (ForwardBotSetup.start_cmd cfg u) w
            = [reply_text (sender u)
                 (ForwardBotSetup.START_HEAD cfg
                  +:+ "Источник ограничен: " +:+ Py.str s)])
         ∧ ∀ u',
             (sender u' = s → s ≠ ForwardBot.TARGET_CHAT_ID cfg →
              trace env (ForwardBot.forward_all cfg u') w
              = [copy_message (ForwardBot.TARGET_CHAT_ID cfg) s
                   (Telegram.message_id (Telegram.effective_message u'))])
             ∧ (sender u' ≠ s →
                trace env (ForwardBot.forward_all cfg u') w = [])).
Proof.
  assert (Htrace : ∀ text,
    Telegram.message u ≠ None →
    trace env (reply reply_text u text) w = [reply_text (sender u) text]).
  { intros text Hmsg. unfold trace. rewrite reply_run.
    now destruct (Telegram.message u). }
  unfold ForwardBotSetup.start_cmd.
  split; [unfold exec; rewrite reply_run; now destruct (Telegram.message u)|].
  split.
  { intros Hmsg. unfold trace, result. now rewrite reply_run, Hmsg. }
  destruct cfg as [target [s|]]; cbn [ForwardBot.SOURCE_CHAT_ID
    ForwardBot.TARGET_CHAT_ID Py.truthy_opt from_option].
  - unfold Py.truthy. destruct (decide (s = 0)) as [-> | Hs].
    + left. split; [apply Htrace|]. intros u' Hne. unfold trace.
      rewrite forward_all_run. cbn.
      now rewrite (proj2 (Z.eqb_neq _ _) Hne).
    + right. exists s. rewrite (proj2 (Z.eqb_neq _ _) Hs). cbn [negb].
      split; [done|]. split; [apply Htrace|]. intros u'.
      unfold trace. rewrite forward_all_run. cbn. unfold Py.truthy.
      rewrite (proj2 (Z.eqb_neq _ _) Hs). cbn [negb andb].
      split.
      * intros Hu' Hne. rewrite Hu', bool_decide_true by done.
        now rewrite (proj2 (Z.eqb_neq _ _) Hne).
      * intros Hne. rewrite bool_decide_false by congruence. done.
  - left. split; [apply Htrace|]. intros u' Hne. unfold trace.
    rewrite forward_all_run. cbn.
    now rewrite (proj2 (Z.eqb_neq _ _) Hne).
Qed.

End Forwarding.

(** ** Starting the forward-all bot *)

Lemma truthy_str_Some (o : option string) :
  ForwardBotSetup.truthy_str o = true → ∃ s, o = Some s ∧ s ≠ "".
Proof.
  destruct o as [s|]; [|done]. cbn. intros Hs. exists s. split; [done|].
  intros ->. done.
Qed.

(** X21. If the module gets past its start-up check, the target is a
    number other than 0 read from [TARGET_CHAT_ID], and [BOT_TOKEN] and
    [APP_BASE_URL] are set and not empty.  If [SOURCE_CHAT_ID] is unset or
    empty there is no restriction, and every message from a chat other
    than the target is copied to the target. *)
Theorem forward_bot_started (read_int : string → option Z)
    (environ : ForwardBotSetup.environ) (st : ForwardBotSetup.settings) :
  ForwardBotSetup.configure read_int environ = ForwardBotSetup.Started st →
  ForwardBot.TARGET_CHAT_ID (ForwardBotSetup.routing st) ≠ 0
  ∧ read_int (default "0" (environ !! "TARGET_CHAT_ID"))
    = Some (ForwardBot.TARGET_CHAT_ID (ForwardBotSetup.routing st))
  ∧ environ !! "BOT_TOKEN" = Some (ForwardBotSetup.BOT_TOKEN st)
  ∧ ForwardBotSetup.BOT_TOKEN st ≠ ""
  ∧ environ !! "APP_BASE_URL" = Some (ForwardBotSetup.APP_BASE_URL st)
  ∧ ForwardBotSetup.APP_BASE_URL st ≠ ""
  ∧ (environ !! "SOURCE_CHAT_ID" = None ∨ environ !! "SOURCE_CHAT_ID" = Some "" →
     ForwardBot.SOURCE_CHAT_ID (ForwardBotSetup.routing st) = None
     ∧ ∀ env u w,
         sender u ≠ ForwardBot.TARGET_CHAT_ID (ForwardBotSetup.routing st) →
         trace env (ForwardBot.forward_all (ForwardBotSetup.routing st) u) w
         = [copy_message
              (ForwardBot.TARGET_CHAT_ID (ForwardBotSetup.routing st))
              (sender u)
              (Telegram.message_id (Telegram.effective_message u))]).
Proof.
  unfold ForwardBotSetup.configure.
  destruct (read_int (default "0" _)) as [target|] eqn:Htarget; [|done].
  destruct (if ForwardBotSetup.truthy_str (environ !! "SOURCE_CHAT_ID")
            then _ else _) as [e|source] eqn:Hsource; [done|].
  destruct (read_int (default "10000" _)) as [port|]; [|done].
  destruct (ForwardBotSetup.truthy_str (environ !! "BOT_TOKEN")) eqn:Htok;
    [|done].
  destruct (Py.truthy target) eqn:Ht; [|done].
  destruct (ForwardBotSetup.truthy_str (environ !! "APP_BASE_URL")) eqn:Hurl;
    [|done].
  cbn. intros [= <-]. cbn.
  apply truthy_str_Some in Htok as (tok & Htok & Htok').
  apply truthy_str_Some in Hurl as (url & Hurl & Hurl').
  rewrite Htok, Hurl. cbn.
  assert (Hnz : target ≠ 0).
  { intros ->. discriminate Ht. }
  repeat split; try done.
  - destruct H as [H | H]; rewrite H in Hsource; cbn in Hsource; congruence.
  - intros env u w Hne.
    assert (source = None) as ->.
    { destruct H as [H | H]; rewrite H in Hsource; cbn in Hsource;
        congruence. }
    unfold trace. rewrite forward_all_run. cbn.
    now rewrite (proj2 (Z.eqb_neq _ _) Hne).
Qed.

(** * The webhook endpoint *)

Lemma rstrip_slash_snoc (s : string) :
  Webhook.rstrip_slash (s +:+ "/") = Webhook.rstrip_slash s.
Proof.
  induction s as [|c s IH]; [done|].
  change (String c s +:+ "/") with (String c (s +:+ "/")).
  cbn [Webhook.rstrip_slash]. now rewrite IH.
Qed.

Lemma append_slashes_snoc (s : string) (n : nat) :
  s +:+ slashes (S n) = (s +:+ "/") +:+ slashes n.
Proof.
  induction s as [|c s IH]; [done|].
  change (String c (s +:+ slashes (S n)) = String c ((s +:+ "/") +:+ slashes n)).
  now rewrite IH.
Qed.

Lemma append_nil_r (s : string) : s +:+ "" = s.
Proof.
  induction s as [|c s IH]; [done|].
  change (String c (s +:+ "") = String c s). now rewrite IH.
Qed.

Lemma rstrip_slash_no_trailing (s r : string) :
  Webhook.rstrip_slash s ≠ r +:+ "/".
Proof.
  revert r. induction s as [|c s IH]; intros r.
  - destruct r; discriminate.
  - cbn [Webhook.rstrip_slash].
    destruct (Webhook.rstrip_slash s) as [|y t] eqn:Hs.
    + destruct (Ascii.eqb c "/") eqn:Hc.
      * destruct r; discriminate.
      * destruct r as [|x [|x' r]]; cbv [String.append];
          try discriminate.
        intros [= ->]. discriminate Hc.
    + destruct r as [|x r].
      * cbv [String.append]. discriminate.
      * change (String x r +:+ "/") with (String x (r +:+ "/")).
        intros [= _ Heq]. now apply (IH r).
Qed.

(** X22. Slashes at the end of [APP_BASE_URL] make no difference to the
    address registered with the platform: it is always the base without
    its trailing slashes followed by the route [/webhook/<secret>] of the
    endpoint. *)
Theorem webhook_url_ignores_trailing_slashes (base secret : string) (n : nat) :
  Webhook.webhook_url (base +:+ slashes n) secret
  = Webhook.webhook_url base secret
  ∧ ∃ stem,
      Webhook.webhook_url base secret = stem +:+ Webhook.WEBHOOK_PATH secret
      ∧ ∀ r, stem ≠ r +:+ "/".
Proof.
  split.
  - unfold Webhook.webhook_url. f_equal.
    revert base. induction n as [|n IH]; intros base.
    + cbn [slashes]. now rewrite append_nil_r.
    + now rewrite append_slashes_snoc, IH, rstrip_slash_snoc.
  - exists (Webhook.rstrip_slash base). split; [done|].
    apply rstrip_slash_no_trailing.
Qed.

Section Endpoint.
Context (env : platform).

(** X23. A request whose secret header is missing or differs from the
    configured secret is answered with 401 before anything else happens:
    the body is not decoded, no handler runs, the store and the file are
    untouched and no call is made.  A request with the right header and a
    body that decodes runs the dispatcher on the update and, if that
    returns, is answered [{"ok": True}]. *)
Theorem telegram_webhook_checks_secret (secret : string)
    (process_update : Telegram.Update → M unit) (req : Webhook.Request)
    (w : world) :
  (Webhook.secret_token_header req ≠ Some secret →
     run env (Webhook.telegram_webhook secret process_update req) w
     = (Ret (Webhook.Unauthorized "Invalid secret token"), w, []))
  ∧ (∀ update,
       Webhook.secret_token_header req = Some secret →
       Webhook.body req = inr update →
       exec env (Webhook.telegram_webhook secret process_update req) w
       = exec env (process_update update) w
       ∧ trace env (Webhook.telegram_webhook secret process_update req) w
         = trace env (process_update update) w
       ∧ result env (Webhook.telegram_webhook secret process_update req) w
         = match result env (process_update update) w with
           | Ret _ => Ret Webhook.Ok_true
           | Raise e => Raise e
           end).
Proof.
  split.
  - intros Hbad. unfold run, Webhook.telegram_webhook.
    now rewrite bool_decide_false.
  - intros update Hgood Hbody.
    unfold exec, trace, result, run, Webhook.telegram_webhook.
    rewrite bool_decide_true by done. rewrite Hbody. cbn.
    unfold mbind, mret, M_bind, M_ret, bind, ret, lift. cbn.
    destruct (process_update update env w) as [[[[]|e] w'] t]; cbn;
      rewrite ?app_nil_r; done.
Qed.

End Endpoint.

(** * Runs of the properties above *)

Lemma set_pair_frame_witness :
  result quiet (PairBot.get_partner 100)
    (exec quiet (PairBot.set_pair 300 400) paired) = Ret (Some 200).
Proof.
  rewrite (set_pair_frame quiet 300 400 100 paired); [reflexivity | lia | lia].
Defined.

Lemma unlink_frame_witness :
  result quiet (PairBot.get_partner 300)
    (exec quiet (PairBot.unlink 100) (exec quiet (PairBot.set_pair 300 400) paired))
  = Ret (Some 400).
Proof.
  rewrite (unlink_frame quiet 100 300
             (exec quiet (PairBot.set_pair 300 400) paired));
    [reflexivity | lia | discriminate].
Defined.

Lemma unlink_undoes_set_pair_witness :
  _pairs (exec quiet (PairBot.unlink 300)
            (exec quiet (PairBot.set_pair 300 400) paired))
  = _pairs paired.
Proof.
  apply (unlink_undoes_set_pair quiet 300 400 paired);
    [lia | reflexivity | reflexivity].
Defined.

Lemma unlink_either_side_witness :
  _pairs (exec quiet (PairBot.unlink 100) paired)
  = _pairs (exec quiet (PairBot.unlink 200) paired).
Proof.
  apply (unlink_either_side quiet 100 200 paired); reflexivity.
Defined.

Lemma tidy_histories_are_symmetric_witness :
  symmetric quiet (exec quiet (PairBot.set_pair 1 2) fresh).
Proof.
  apply tidy_histories_are_symmetric.
  apply tidy_set_pair; [apply tidy_empty|].
  split; intros c Hc; discriminate Hc.
Defined.

Lemma restart_finds_saved_pairs_witness :
  _pairs (exec quiet PairBot.load_pairs
            (restarted ∅ (exec quiet (perform (SetPair 100 200)) fresh)))
  = _pairs (exec quiet (perform (SetPair 100 200)) fresh).
Proof.
  apply (restart_finds_saved_pairs quiet (SetPair 100 200) fresh ∅).
  reflexivity.
Defined.

Lemma restart_loses_unsaved_change_witness :
  exec hostile PairBot.load_pairs
    (restarted ∅ (exec hostile (perform (SetPair 100 200)) fresh))
  = exec hostile PairBot.load_pairs (restarted ∅ fresh).
Proof.
  apply (restart_loses_unsaved_change hostile (SetPair 100 200) fresh ∅
           Py.OSError).
  reflexivity.
Defined.

Lemma load_pairs_all_or_nothing_witness :
  run quiet PairBot.load_pairs
    (World ∅ (Holds (Py.JObj [("100", Py.JInt 200); ("200", Py.JStr "abc")])))
  = (Ret tt,
     World ∅ (Holds (Py.JObj [("100", Py.JInt 200); ("200", Py.JStr "abc")])),
     [log_exception "Failed to load pairs: %s"]).
Proof.
  apply (load_pairs_all_or_nothing quiet
           (World ∅ (Holds (Py.JObj [("100", Py.JInt 200);
                                     ("200", Py.JStr "abc")])))
           [("100", Py.JInt 200); ("200", Py.JStr "abc")]
           "200" (Py.JStr "abc") Py.ValueError);
    [reflexivity | | reflexivity].
  right. left.
Defined.

(** [/link 200] by 100 on a platform where every call fails, and the same
    command arriving as an edit on a platform where none does. *)
Lemma link_cmd_links_both_ways_witness :
  result hostile (PairBot.get_partner 200)
    (exec hostile (PairBot.link_cmd (human_in 100 1) (link_args "200")) fresh)
  = Ret (Some 100)
  ∧ result quiet (PairBot.link_cmd (edited (human_in 100 1)) (link_args "200"))
      fresh
    = Raise Py.AttributeError
  ∧ result quiet (PairBot.get_partner 200)
      (exec quiet (PairBot.link_cmd (edited (human_in 100 1)) (link_args "200"))
         fresh)
    = Ret (Some 100).
Proof.
  destruct (link_cmd_links_both_ways hostile (human_in 100 1) (link_args "200")
              "200" [] 200 fresh) as (_ & Hback & _);
    [reflexivity | reflexivity | cbn; lia |].
  destruct (link_cmd_links_both_ways quiet (edited (human_in 100 1))
              (link_args "200") "200" [] 200 fresh)
    as (_ & Hback' & _ & Hraise);
    [reflexivity | reflexivity | cbn; lia |].
  split; [exact Hback|]. split; [exact Hraise | exact Hback'].
Defined.

Lemma link_then_relay_both_ways_witness :
  copies (trace hostile (PairBot.relay_messages (human_in 100 9))
            (exec hostile (PairBot.link_cmd (human_in 100 1) (link_args "200"))
               fresh))
  = [(200, 100, 9)].
Proof.
  apply (link_then_relay_both_ways hostile (human_in 100 1) (link_args "200")
           "200" [] 200 (human_in 100 9) fresh);
    [reflexivity | reflexivity | cbn; lia | lia | cbn; lia
     | reflexivity | reflexivity | reflexivity].
Defined.

Lemma unlink_cmd_dissolves_witness :
  trace quiet (PairBot.relay_messages (human_in 200 9))
    (exec quiet (PairBot.unlink_cmd (human_in 100 1)) paired) = [].
Proof.
  apply (unlink_cmd_dissolves quiet (human_in 100 1) 200 (human_in 200 9)
           paired); [reflexivity | lia | right; reflexivity].
Defined.

Lemma unlink_cmd_without_partner_witness :
  _pairs (exec quiet (PairBot.unlink_cmd (human_in 300 1)) paired)
  = _pairs paired.
Proof.
  apply (unlink_cmd_without_partner quiet (human_in 300 1) paired).
  reflexivity.
Defined.

Lemma start_cmd_reports_relay_status_witness :
  exec quiet (PairBot.start_cmd (human_in 100 1)) paired = paired.
Proof.
  apply (start_cmd_reports_relay_status quiet (human_in 100 1)
           (human_in 100 2) paired); reflexivity.
Defined.

Lemma myid_then_link_witness :
  result quiet (PairBot.get_partner 100)
    (exec quiet (PairBot.link_cmd (human_in 100 1)
                   {| Telegram.args := [Py.str 200] |}) fresh)
  = Ret (Some 200).
Proof.
  apply (myid_then_link quiet (human_in 100 1) (human_in 200 2) [] fresh);
    [cbn; lia | reflexivity].
Defined.

Lemma handlers_never_pair_with_self_witness :
  no_self_pairing quiet
    (invoke_all quiet
       [on_link (human_in 100 1) (link_args "200");
        on_link (human_in 100 2) (link_args "100");
        on_message (human_in 200 3);
        on_unlink (human_in 200 4)]
       fresh).
Proof.
  apply handlers_never_pair_with_self.
  intros a Ha. rewrite get_partner_result in Ha. cbn in Ha.
  rewrite lookup_empty in Ha. discriminate Ha.
Defined.

Lemma forward_bot_started_witness :
  ForwardBot.TARGET_CHAT_ID (ForwardBotSetup.routing example_settings) ≠ 0
  ∧ ForwardBotSetup.BOT_TOKEN example_settings ≠ "".
Proof.
  destruct (forward_bot_started AsciiInt.int_of_str example_environ
              example_settings)
    as (Htarget & _ & _ & Htoken & _); [vm_compute; reflexivity|].
  split; [exact Htarget | exact Htoken].
Defined.

Lemma telegram_webhook_checks_secret_witness :
  run quiet (Webhook.telegram_webhook "s3cret" PairBot.relay_messages
               bad_request) paired
  = (Ret (Webhook.Unauthorized "Invalid secret token"), paired, [])
  ∧ trace quiet (Webhook.telegram_webhook "s3cret" PairBot.relay_messages
                   good_request) paired
    = [copy_message 100 200 7].
Proof.
  split.
  - apply (telegram_webhook_checks_secret quiet "s3cret"
             PairBot.relay_messages bad_request paired).
    discriminate.
  - destruct (telegram_webhook_checks_secret quiet "s3cret"
                PairBot.relay_messages good_request paired) as [_ Hgood].
    destruct (Hgood (human_in 200 7) eq_refl eq_refl) as (_ & Htrace & _).
    rewrite Htrace. reflexivity.
Defined.
